(** * Shopping API: catalogue endpoints of [main.py]

    A shallow embedding of the product endpoints ([list_products],
    [create_product], [get_product], [list_categories]) and of the record
    mapper [_doc_to_product], together with the properties the catalogue
    specification states about them.

    Python values are an inductive type, dictionaries are association lists
    in insertion order, exceptions are an error type, and the handlers run in
    a small state-and-exception monad over the state of the document store. *)

From Stdlib Require Import ZArith List Bool Ascii String Lia.
From Stdlib Require Import Floats.SpecFloat.
From Stdlib Require Import Strings.Byte.
From Stdlib Require DecimalString.
Import ListNotations.

Local Open Scope string_scope.
Local Open Scope Z_scope.

(** ** Exceptions and results *)

(** The exceptions the handlers can end with.  [HTTPException] is the one the
    handlers raise themselves; [RequestValidationError] is what the framework
    answers when a declared parameter constraint fails, and
    [ResponseValidationError] what it ends with when a handler's result does
    not fit the declared [response_model]; the others are Python or driver
    exceptions that escape a handler. *)
Inductive exn : Type :=
| HTTPException (status_code : Z) (detail : string)
| RequestValidationError
| TypeError
| ValueError
| OverflowError
| ValidationError
| DuplicateKeyError
| ResponseValidationError.

(** Status line the client sees. *)
Definition http_status (e : exn) : Z :=
  match e with
  | HTTPException s _ => s
  | RequestValidationError => 422
  | _ => 500
  end.

Definition is_client_error (e : exn) : bool :=
  (400 <=? http_status e) && (http_status e <? 500).

Inductive result (A : Type) : Type :=
| Ok (a : A)
| Raise (e : exn).
Arguments Ok {A} a.
Arguments Raise {A} e.

Definition rbind {A B} (r : result A) (k : A -> result B) : result B :=
  match r with
  | Ok a => k a
  | Raise e => Raise e
  end.

Declare Scope result_scope.
Delimit Scope result_scope with result.
Notation "x <-! r ;; k" := (rbind r (fun x => k))
  (at level 61, r at next level, right associativity) : result_scope.

(** ** Store identifiers ([bson.ObjectId]) *)

(** An identifier is its [binary] form. *)
Record ObjectId : Type := mkObjectId { binary : list byte }.

Definition hex_digit (n : N) : ascii :=
  match n with
  | 0 => "0" | 1 => "1" | 2 => "2" | 3 => "3" | 4 => "4" | 5 => "5"
  | 6 => "6" | 7 => "7" | 8 => "8" | 9 => "9" | 10 => "a" | 11 => "b"
  | 12 => "c" | 13 => "d" | 14 => "e" | _ => "f"
  end%N%char.

(** Value of a hexadecimal digit, either case. *)
Definition hex_value (c : ascii) : option N :=
  let n := N_of_ascii c in
  if ((48 <=? n) && (n <=? 57))%N then Some (n - 48)%N
  else if ((97 <=? n) && (n <=? 102))%N then Some (n - 87)%N
  else if ((65 <=? n) && (n <=? 70))%N then Some (n - 55)%N
  else None.

(** [Py_ISSPACE]: space, tab, line feed, vertical tab, form feed, return. *)
Definition is_space (c : ascii) : bool :=
  let n := N_of_ascii c in
  ((n =? 32) || ((9 <=? n) && (n <=? 13)))%N.

(** [bytes.hex()]: two lower-case digits per byte. *)
Fixpoint hexlify (l : list byte) : string :=
  match l with
  | [] => EmptyString
  | b :: r =>
      let n := Byte.to_N b in
      String (hex_digit (n / 16)) (String (hex_digit (n mod 16)) (hexlify r))
  end.

Definition byte_of_digits (hi lo : N) : option byte :=
  Byte.of_N (16 * hi + lo).

(** [bytes.fromhex]: white space is skipped in front of a byte, the two digits
    of a byte are adjacent, anything else is a [ValueError] (here [None]). *)
Fixpoint fromhex (s : string) : option (list byte) :=
  match s with
  | EmptyString => Some []
  | String c r =>
      if is_space c then fromhex r
      else
        match hex_value c, r with
        | Some hi, String d r' =>
            match hex_value d with
            | Some lo =>
                match byte_of_digits hi lo, fromhex r' with
                | Some b, Some l => Some (b :: l)
                | _, _ => None
                end
            | None => None
            end
        | _, _ => None
        end
  end.

(** The characters of a string. *)
Fixpoint chars (s : string) : list ascii :=
  match s with
  | EmptyString => []
  | String c r => c :: chars r
  end.

(** [ObjectId(oid)] for a [str] argument: the length must be 24 and
    [bytes.fromhex] must accept it; [None] stands for [InvalidId]. *)
Definition ObjectId_of_str (s : string) : option ObjectId :=
  if Nat.eqb (String.length s) 24 then
    match fromhex s with
    | Some l => Some (mkObjectId l)
    | None => None
    end
  else None.

(** [str(oid)]. *)
Definition ObjectId_str (o : ObjectId) : string := hexlify (binary o).

Definition byte_eqb (a b : byte) : bool := N.eqb (Byte.to_N a) (Byte.to_N b).

Fixpoint bytes_eqb (a b : list byte) : bool :=
  match a, b with
  | [], [] => true
  | x :: a', y :: b' => byte_eqb x y && bytes_eqb a' b'
  | _, _ => false
  end.

Definition ObjectId_eqb (a b : ObjectId) : bool :=
  bytes_eqb (binary a) (binary b).

(** Big-endian bytes of [n], [len] of them (the value is taken modulo
    [256 ^ len]). *)
Fixpoint bytes_of_N (len : nat) (n : N) : list byte :=
  match len with
  | O => []
  | S len' =>
      bytes_of_N len' (n / 256) ++
      [match Byte.of_N (n mod 256) with Some b => b | None => x00 end]
  end.

(** A freshly generated identifier is twelve bytes. *)
Definition ObjectId_of_N (n : N) : ObjectId := mkObjectId (bytes_of_N 12 n).

(** ** Python values *)

Definition float : Type := spec_float.

#[local] Set Warnings "-register-all".

(** Values found in request data and in stored documents. *)
Inductive value : Type :=
| VNone
| VBool (b : bool)
| VInt (z : Z)
| VFloat (f : float)
| VStr (s : string)
| VOid (o : ObjectId)
| VDatetime (t : Z)
| VList (l : list value)
| VDict (d : list (string * value)).

(** A [dict] with [str] keys, in insertion order. *)
Definition dict : Type := list (string * value).

(** [d.get(k)], as an option. *)
Fixpoint dict_get (k : string) (d : dict) : option value :=
  match d with
  | [] => None
  | (k', v) :: r => if String.eqb k k' then Some v else dict_get k r
  end.

(** [d.get(k, default)]. *)
Definition dict_get_default (k : string) (default : value) (d : dict) : value :=
  match dict_get k d with
  | Some v => v
  | None => default
  end.

(** [d.get(k)]: [None] when the key is missing. *)
Definition dict_get_none (k : string) (d : dict) : value :=
  dict_get_default k VNone d.

(** [d[k] = v]: the binding is replaced in place, a new key goes last. *)
Fixpoint dict_set (k : string) (v : value) (d : dict) : dict :=
  match d with
  | [] => [(k, v)]
  | (k', v') :: r =>
      if String.eqb k k' then (k, v) :: r else (k', v') :: dict_set k v r
  end.

(** Binary64 floats: the precision and exponent bound of a Python [float]. *)
Definition prec : Z := 53.
Definition emax : Z := 1024.

(** [float(z)] for an [int]: the nearest double, ties to even. *)
Definition float_of_Z (z : Z) : float := binary_normalize prec emax z 0 false.

Definition float_zero : float := S754_zero false.
Definition float_4_5 : float := S754_finite false 5066549580791808 (-50).

Definition float_is_zero (f : float) : bool :=
  match f with
  | S754_zero _ => true
  | _ => false
  end.

Definition float_same (a b : float) : bool :=
  match a, b with
  | S754_zero s, S754_zero s' => Bool.eqb s s'
  | S754_infinity s, S754_infinity s' => Bool.eqb s s'
  | S754_nan, S754_nan => true
  | S754_finite s m e, S754_finite s' m' e' =>
      Bool.eqb s s' && Pos.eqb m m' && Z.eqb e e'
  | _, _ => false
  end.

(** Truth value of an object: what [if x:] and [bool(x)] test. *)
Definition truthy (v : value) : bool :=
  match v with
  | VNone => false
  | VBool b => b
  | VInt z => negb (z =? 0)
  | VFloat f => negb (float_is_zero f)
  | VStr s => negb (String.eqb s EmptyString)
  | VOid _ => true
  | VDatetime _ => true
  | VList l => match l with [] => false | _ => true end
  | VDict d => match d with [] => false | _ => true end
  end.

(** Truth value of an [Optional[str]] parameter. *)
Definition truthy_param (p : option string) : bool :=
  match p with
  | Some s => truthy (VStr s)
  | None => truthy VNone
  end.

(** Integer part of a float, rounding towards zero. *)
Definition trunc_float (s : bool) (m : positive) (e : Z) : Z :=
  let mag := if 0 <=? e then Z.pos m * 2 ^ e else Z.pos m / 2 ^ (- e) in
  if s then - mag else mag.

(** Structural equality of values, the store's notion of an exact match. *)
Fixpoint value_eqb (a b : value) {struct a} : bool :=
  match a, b with
  | VNone, VNone => true
  | VBool x, VBool y => Bool.eqb x y
  | VInt x, VInt y => x =? y
  | VFloat x, VFloat y => float_same x y
  | VStr x, VStr y => String.eqb x y
  | VOid x, VOid y => ObjectId_eqb x y
  | VDatetime x, VDatetime y => x =? y
  | VList xs, VList ys =>
      (fix list_eqb (l1 l2 : list value) {struct l1} : bool :=
         match l1, l2 with
         | [], [] => true
         | x :: l1', y :: l2' => value_eqb x y && list_eqb l1' l2'
         | _, _ => false
         end) xs ys
  | VDict xs, VDict ys =>
      (fix dict_eqb (l1 l2 : list (string * value)) {struct l1} : bool :=
         match l1, l2 with
         | [], [] => true
         | (k, x) :: l1', (k', y) :: l2' =>
             String.eqb k k' && value_eqb x y && dict_eqb l1' l2'
         | _, _ => false
         end) xs ys
  | _, _ => false
  end.

(** ** The models of the catalogue ([pydantic.BaseModel]) *)

Record ProductIn : Type := mkProductIn {
  title : string;
  description : option string;
  price : float;
  category : string;
  in_stock : bool;
  image : option string;
  rating : option float;
  reviews : option Z
}.

(** [ProductOut] extends [ProductIn] with the identifier. *)
Record ProductOut : Type := mkProductOut {
  id : string;
  fields :> ProductIn
}.

Definition opt_value {A} (inj : A -> value) (o : option A) : value :=
  match o with
  | Some a => inj a
  | None => VNone
  end.

(** [product.model_dump()]: every field, in declaration order. *)
Definition model_dump (p : ProductIn) : dict :=
  [ ("title", VStr (title p));
    ("description", opt_value VStr (description p));
    ("price", VFloat (price p));
    ("category", VStr (category p));
    ("in_stock", VBool (in_stock p));
    ("image", opt_value VStr (image p));
    ("rating", opt_value VFloat (rating p));
    ("reviews", opt_value VInt (reviews p)) ].

(** Validation of a [str] field: only a string passes. *)
Definition validate_str (v : value) : result string :=
  match v with
  | VStr s => Ok s
  | _ => Raise ValidationError
  end.

(** Validation of an [Optional[str]] field. *)
Definition validate_opt_str (v : value) : result (option string) :=
  match v with
  | VNone => Ok None
  | VStr s => Ok (Some s)
  | _ => Raise ValidationError
  end.

(** What an [Optional[str]] field is for what is stored under its key: no
    value when the key is missing or holds [None], the string when it holds
    one, and nothing fits another value. *)
Definition optional_text (stored : option value) (field : option string)
  : Prop :=
  match stored with
  | None => field = None
  | Some VNone => field = None
  | Some (VStr s) => field = Some s
  | Some _ => False
  end.

(** ** The diagnostic endpoint ([test_database]) *)

(** Outcome of a call that may raise: the value returned, or the text
    [str(e)] of the exception.  Texts are in UTF-8, as the literal parts of
    the messages are: a character is a lead byte with the continuation
    bytes that follow it. *)
Inductive outcome (A : Type) : Type :=
| Returns (a : A)
| Throws (message : string).
Arguments Returns {A} a.
Arguments Throws {A} message.

(** The database object as the probe sees it: its attribute [name], when
    it has one, and what [list_collection_names()] does. *)
Record Database : Type := mkDatabase {
  db_name : option value;
  list_collection_names : outcome (list string)
}.

(** What [from database import db] does in the probe: an [ImportError], any
    other exception, or the value of [db]. *)
Inductive probe_import : Type :=
| ImportErrorRaised
| ImportRaised (message : string)
| ImportedDb (db : option Database).

(** The process environment and the database module. *)
Record environment : Type := mkEnvironment {
  getenv : string -> option string;
  database_module : probe_import
}.

(** A continuation byte of UTF-8: [10xxxxxx]. *)
Definition is_continuation (c : ascii) : bool :=
  let n := N_of_ascii c in ((128 <=? n) && (n <=? 191))%N.

(** [len(s)]: the number of characters. *)
Fixpoint char_count (s : string) : nat :=
  match s with
  | EmptyString => O
  | String c r =>
      if is_continuation c then char_count r else S (char_count r)
  end.

(** [s[:n]]: the first [n] characters, each with all its bytes. *)
Fixpoint take_chars (n : nat) (s : string) : string :=
  match s with
  | EmptyString => EmptyString
  | String c r =>
      if is_continuation c then String c (take_chars n r)
      else
        match n with
        | O => EmptyString
        | S n' => String c (take_chars n' r)
        end
  end.

(** [str(e)[:50]]. *)
Definition cut50 (message : string) : string := take_chars 50 message.

(** ["✅ Set" if os.getenv(name) else "❌ Not Set"]. *)
Definition set_mark (env : environment) (name : string) : value :=
  if truthy (opt_value VStr (getenv env name))
  then VStr "✅ Set" else VStr "❌ Not Set".

(** [test_database]. *)
Definition test_database (env : environment) : dict :=
  let response :=
    [ ("backend", VStr "✅ Running");
      ("database", VStr "❌ Not Available");
      ("database_url", VNone);
      ("database_name", VNone);
      ("connection_status", VStr "Not Connected");
      ("collections", VList []) ] in
  let response :=
    match database_module env with
    | ImportedDb (Some db) =>
        let response := dict_set "database" (VStr "✅ Available") response in
        let response :=
          dict_set "database_url" (set_mark env "DATABASE_URL") response in
        let response :=
          dict_set "database_name"
            (match db_name db with
             | Some n => n
             | None => VStr "✅ Connected"
             end) response in
        let response :=
          dict_set "connection_status" (VStr "Connected") response in
        match list_collection_names db with
        | Returns collections =>
            let response :=
              dict_set "collections"
                (VList (map VStr (firstn 10 collections))) response in
            dict_set "database" (VStr "✅ Connected & Working") response
        | Throws e =>
            dict_set "database"
              (VStr ("⚠️  Connected but Error: " ++ cut50 e)) response
        end
    | ImportedDb None =>
        dict_set "database" (VStr "⚠️  Available but not initialized")
          response
    | ImportErrorRaised =>
        dict_set "database" (VStr "❌ Database module not found") response
    | ImportRaised e =>
        dict_set "database" (VStr ("❌ Error: " ++ cut50 e)) response
    end in
  let response :=
    dict_set "database_url" (set_mark env "DATABASE_URL") response in
  let response :=
    dict_set "database_name" (set_mark env "DATABASE_NAME") response in
  response.

(** [read_root] and [hello]. *)
Definition read_root : dict := [("message", VStr "Shopping API running")].

Definition hello : dict := [("message", VStr "Hello from the backend API!")].

(** ** A reference runtime for worked examples *)

(** Stand-ins for the parts of the runtime the development takes as given,
    used where an example has to be evaluated: decimal numerals for the
    parsers, and a search that reads the pattern literally. *)
Definition dec_int_of_str (s : string) : option Z :=
  option_map Z.of_int (DecimalString.NilZero.int_of_string s).

Definition dec_float_of_str (s : string) : option float :=
  option_map float_of_Z (dec_int_of_str s).

Definition plain_str (v : value) : string := "<object>".

Definition lower (c : ascii) : ascii :=
  let n := N_of_ascii c in
  if ((65 <=? n) && (n <=? 90))%N then ascii_of_N (n + 32) else c.

Fixpoint lower_str (s : string) : string :=
  match s with
  | EmptyString => EmptyString
  | String c r => String (lower c) (lower_str r)
  end.

Fixpoint contains (p s : string) : bool :=
  String.prefix p s ||
  match s with
  | EmptyString => false
  | String _ r => contains p r
  end.

Fixpoint has_char (c : ascii) (s : string) : bool :=
  match s with
  | EmptyString => false
  | String d r => Ascii.eqb c d || has_char c r
  end.

Definition literal_search (pattern options subject : string) : bool :=
  if has_char "i"%char options
  then contains (lower_str pattern) (lower_str subject)
  else contains pattern subject.

Section Catalogue.

(** The parts of the Python runtime and of the store that are taken as
    given: the numeral parsers behind [float(str)] and [int(str)], the text
    form [str(v)] of the values whose text form is not spelled out below, and
    the store's evaluation of a regular expression with its options on a
    string. *)
Variable float_of_str : string -> option float.
Variable int_of_str : string -> option Z.
Variable str_other : value -> string.
Variable regex_search : string -> string -> string -> bool.

(** [float(v)]. *)
Definition py_float (v : value) : result float :=
  match v with
  | VFloat f => Ok f
  | VInt z =>
      match float_of_Z z with
      | S754_infinity _ => Raise OverflowError
      | f => Ok f
      end
  | VBool b => Ok (float_of_Z (if b then 1 else 0))
  | VStr s =>
      match float_of_str s with
      | Some f => Ok f
      | None => Raise ValueError
      end
  | _ => Raise TypeError
  end.

(** [int(v)]. *)
Definition py_int (v : value) : result Z :=
  match v with
  | VInt z => Ok z
  | VBool b => Ok (if b then 1 else 0)
  | VFloat f =>
      match f with
      | S754_zero _ => Ok 0
      | S754_infinity _ => Raise OverflowError
      | S754_nan => Raise ValueError
      | S754_finite s m e => Ok (trunc_float s m e)
      end
  | VStr s =>
      match int_of_str s with
      | Some z => Ok z
      | None => Raise ValueError
      end
  | _ => Raise TypeError
  end.

(** [str(v)]. *)
Definition py_str (v : value) : string :=
  match v with
  | VNone => "None"
  | VBool b => if b then "True" else "False"
  | VInt z => DecimalString.NilZero.string_of_int (Z.to_int z)
  | VStr s => s
  | VOid o => ObjectId_str o
  | _ => str_other v
  end.

(** *** [_doc_to_product] *)

(** The arguments are evaluated from left to right, so the first coercion
    that fails decides the exception; the model is validated once all of
    them are there. *)
Definition _doc_to_product (doc : dict) : result ProductOut :=
  (let id_ := py_str (dict_get_none "_id" doc) in
   let title_ := dict_get_none "title" doc in
   let description_ := dict_get_none "description" doc in
   price_ <-! py_float (dict_get_default "price" (VInt 0) doc) ;;
   let category_ := dict_get_none "category" doc in
   let in_stock_ := truthy (dict_get_default "in_stock" (VBool true) doc) in
   let image_ := dict_get_none "image" doc in
   rating_ <-! py_float (dict_get_default "rating" (VFloat float_4_5) doc) ;;
   reviews_ <-! py_int (dict_get_default "reviews" (VInt 0) doc) ;;
   t <-! validate_str title_ ;;
   d <-! validate_opt_str description_ ;;
   c <-! validate_str category_ ;;
   i <-! validate_opt_str image_ ;;
   Ok (mkProductOut id_
         (mkProductIn t d price_ c in_stock_ i (Some rating_) (Some reviews_)))
  )%result.

(** ** The document store *)

(** What [from database import db] gives: the import fails, or [db] is
    [None], or [db] is a database handle. *)
Inductive db_module : Type :=
| ImportFails
| Imported (db : option unit).

(** Calls made on [db["product"]]. *)
Inductive store_call : Type :=
| CFind (filters : dict) (limit : Z)
| CInsertOne (data : dict)
| CFindOne (filters : dict)
| CDistinct (key : string).

(** The world a handler runs in: the [database] module, the documents of
    the [product] collection in the store's order, the store [calls] made so
    far (oldest first), the clock with the number of readings taken, and the
    source of fresh identifiers with the number of identifiers drawn. *)
Record world : Type := mkWorld {
  database : db_module;
  product : list dict;
  calls : list store_call;
  clock : nat -> Z;
  ticks : nat;
  oid_source : nat -> N;
  oids : nat
}.

Definition set_product (docs : list dict) (w : world) : world :=
  mkWorld (database w) docs (calls w) (clock w) (ticks w)
          (oid_source w) (oids w).

Definition record_call (c : store_call) (w : world) : world :=
  mkWorld (database w) (product w) (calls w ++ [c]) (clock w) (ticks w)
          (oid_source w) (oids w).

Definition tick (w : world) : world :=
  mkWorld (database w) (product w) (calls w) (clock w) (S (ticks w))
          (oid_source w) (oids w).

Definition draw_oid (w : world) : world :=
  mkWorld (database w) (product w) (calls w) (clock w) (ticks w)
          (oid_source w) (S (oids w)).

(** State and exceptions: the world is threaded through, and an exception
    keeps the world it was raised in. *)
Definition M (A : Type) : Type := world -> result A * world.

Definition ret {A} (a : A) : M A := fun w => (Ok a, w).

Definition raise {A} (e : exn) : M A := fun w => (Raise e, w).

Definition bind {A B} (m : M A) (k : A -> M B) : M B :=
  fun w =>
    match m w with
    | (Ok a, w') => k a w'
    | (Raise e, w') => (Raise e, w')
    end.

Definition lift {A} (r : result A) : M A := fun w => (r, w).

Notation "x <- m ;; k" := (bind m (fun x => k))
  (at level 61, m at next level, right associativity).

(** A field matches a value when it is there and equal to it.  (The store
    also tries the elements of an array-valued field; such a field is
    outside this model, here and for the regular expression below.) *)
Definition field_equals (k : string) (v : value) (doc : dict) : bool :=
  match dict_get k doc with
  | Some w => value_eqb w v
  | None => false
  end.

(** A field matches a regular expression when it is a string the expression
    is found in. *)
Definition field_regex (pattern options k : string) (doc : dict) : bool :=
  match dict_get k doc with
  | Some (VStr s) => regex_search pattern options s
  | _ => false
  end.

(** One [field: condition] entry of a filter. *)
Definition field_clause (k : string) (v : value) (doc : dict) : bool :=
  match v with
  | VDict ops =>
      match dict_get "$regex" ops with
      | Some (VStr pattern) =>
          match dict_get_default "$options" (VStr EmptyString) ops with
          | VStr options => field_regex pattern options k doc
          | _ => false
          end
      | _ => field_equals k v doc
      end
  | _ => field_equals k v doc
  end.

(** The store's reading of a filter document: every entry has to hold, and
    an ["$or"] entry holds when one of its alternatives does. *)
Fixpoint matches_value (f : value) (doc : dict) {struct f} : bool :=
  match f with
  | VDict clauses =>
      (fix all_clauses (cs : list (string * value)) : bool :=
         match cs with
         | [] => true
         | (k, v) :: r =>
             (if String.eqb k "$or" then
                match v with
                | VList alts =>
                    (fix any_alt (l : list value) : bool :=
                       match l with
                       | [] => false
                       | a :: l' => matches_value a doc || any_alt l'
                       end) alts
                | _ => false
                end
              else field_clause k v doc)
             && all_clauses r
         end) clauses
  | _ => false
  end.

Definition matches (filters : dict) (doc : dict) : bool :=
  matches_value (VDict filters) doc.

(** [cursor.limit(n)]: zero is no limit, a negative limit counts as its
    absolute value. *)
Definition cursor_limit (n : Z) (docs : list dict) : list dict :=
  if n =? 0 then docs else firstn (Z.abs_nat n) docs.

(** [db["product"].find(filters).limit(limit)], iterated to the end.  The
    search is a total function here: a pattern the store cannot compile,
    on which the real call raises, is outside this model, and what is said
    about the outcome of a listing is said of listings that succeed or of
    records that cannot be converted. *)
Definition find (filters : dict) (limit : Z) : M (list dict) :=
  fun w =>
    (Ok (cursor_limit limit (filter (matches filters) (product w))),
     record_call (CFind filters limit) w).

(** [db["product"].find_one(filters)]. *)
Definition find_one (filters : dict) : M (option dict) :=
  fun w =>
    (Ok (List.find (matches filters) (product w)),
     record_call (CFindOne filters) w).

(** [db["product"].insert_one(data)]: a document without ["_id"] gets a fresh
    identifier, and an identifier already in the collection is refused.  The
    result is [inserted_id]. *)
Definition insert_one (data : dict) : M value :=
  fun w =>
    let w1 := record_call (CInsertOne data) w in
    let '(data', w2) :=
      match dict_get "_id" data with
      | Some _ => (data, w1)
      | None =>
          (dict_set "_id" (VOid (ObjectId_of_N (oid_source w1 (oids w1)))) data,
           draw_oid w1)
      end in
    let inserted_id := dict_get_none "_id" data' in
    if existsb (field_equals "_id" inserted_id) (product w2)
    then (Raise DuplicateKeyError, w2)
    else (Ok inserted_id, set_product (product w2 ++ [data']) w2).

(** Adds [v] unless an equal value is already there. *)
Definition add_distinct (acc : list value) (v : value) : list value :=
  if existsb (value_eqb v) acc then acc else acc ++ [v].

(** The values a document contributes to [distinct]: the field's value, or
    its elements when it is an array; nothing when the field is missing. *)
Definition distinct_candidates (key : string) (doc : dict) : list value :=
  match dict_get key doc with
  | Some (VList l) => l
  | Some v => [v]
  | None => []
  end.

Definition distinct_values (key : string) (docs : list dict) : list value :=
  fold_left add_distinct (flat_map (distinct_candidates key) docs) [].

(** [db["product"].distinct(key)]. *)
Definition distinct (key : string) : M (list value) :=
  fun w =>
    (Ok (distinct_values key (product w)), record_call (CDistinct key) w).

(** [datetime.now(timezone.utc)]. *)
Definition now : M value :=
  fun w => (Ok (VDatetime (clock w (ticks w))), tick w).

(** ** The handlers *)

Definition not_configured : exn :=
  HTTPException 503 "Database not configured".

(** The opening of every handler: the import inside [try], then the test
    [db is None]. *)
Definition require_db : M unit :=
  fun w =>
    match database w with
    | ImportFails => (Raise not_configured, w)
    | Imported None => (Raise not_configured, w)
    | Imported (Some h) => (Ok h, w)
    end.

Definition regex_clause (q : string) : value :=
  VDict [("$regex", VStr q); ("$options", VStr "i")].

(** The [filters] dictionary of [list_products]. *)
Definition build_filters (q category : option string) : dict :=
  let filters := [] in
  let filters :=
    match q with
    | Some q' =>
        if truthy (VStr q') then
          dict_set "$or"
            (VList [VDict [("title", regex_clause q')];
                    VDict [("description", regex_clause q')]])
            filters
        else filters
    | None => filters
    end in
  let filters :=
    match category with
    | Some c =>
        if truthy (VStr c) then dict_set "category" (VStr c) filters
        else filters
    | None => filters
    end in
  filters.

(** The list comprehension over the cursor: the first document that cannot
    be converted ends it. *)
Fixpoint docs_to_products (docs : list dict) : result (list ProductOut) :=
  match docs with
  | [] => Ok []
  | doc :: r =>
      (p <-! _doc_to_product doc ;;
       ps <-! docs_to_products r ;;
       Ok (p :: ps))%result
  end.

(** Body of [list_products]. *)
Definition list_products (q category : option string) (limit : Z)
  : M (list ProductOut) :=
  _ <- require_db ;;
  let filters := build_filters q category in
  cursor <- find filters limit ;;
  lift (docs_to_products cursor).

(** The declaration [limit: int = Query(24, ge=1, le=100)]: the default when
    the parameter is not given, and the bounds checked by the framework. *)
Definition limit_query (raw : option Z) : result Z :=
  match raw with
  | None => Ok 24
  | Some n =>
      if (1 <=? n) && (n <=? 100) then Ok n else Raise RequestValidationError
  end.

(** [GET /api/products]: the parameters are validated as declared, then the
    handler runs. *)
Definition api_list_products (q category : option string) (raw : option Z)
  : M (list ProductOut) :=
  limit <- lift (limit_query raw) ;;
  list_products q category limit.

(** [create_product]. *)
Definition create_product (product : ProductIn) : M string :=
  _ <- require_db ;;
  let data := model_dump product in
  created_at <- now ;;
  let data := dict_set "created_at" created_at data in
  updated_at <- now ;;
  let data := dict_set "updated_at" updated_at data in
  inserted_id <- insert_one data ;;
  ret (py_str inserted_id).

(** [get_product]. *)
Definition get_product (product_id : string) : M ProductOut :=
  _ <- require_db ;;
  match ObjectId_of_str product_id with
  | None => raise (HTTPException 400 "Invalid product id")
  | Some oid =>
      doc <- find_one [("_id", VOid oid)] ;;
      match doc with
      | None => raise (HTTPException 404 "Product not found")
      | Some d =>
          if negb (truthy (VDict d))
          then raise (HTTPException 404 "Product not found")
          else lift (_doc_to_product d)
      end
  end.

(** [list_categories]. *)
Definition list_categories : M (list value) :=
  _ <- require_db ;;
  categories <- distinct "category" ;;
  ret (filter truthy categories).



(** ** The filter as the specification words it *)

(** A parameter that is present contributes its condition: the free text a
    match on the title or on the description, the category an exact match;
    the conditions are conjoined, and no condition is no constraint. *)
Definition spec_filter (freeText category : option string) (doc : dict)
  : bool :=
  match freeText with
  | Some t =>
      field_regex t "i" "title" doc || field_regex t "i" "description" doc
  | None => true
  end
  &&
  match category with
  | Some c => field_equals "category" (VStr c) doc
  | None => true
  end.

(** A parameter counts for the handler when it is given and not empty. *)
Definition given (p : option string) : option string :=
  match p with
  | Some s => if String.eqb s EmptyString then None else Some s
  | None => None
  end.

(** The document [create_product] hands to [insert_one], with the two
    clock readings, and the document as stored with its identifier. *)
Definition stored_record (p : ProductIn) (created updated : Z) : dict :=
  dict_set "updated_at" (VDatetime updated)
    (dict_set "created_at" (VDatetime created) (model_dump p)).

Definition stored_document (p : ProductIn) (created updated : Z)
           (o : ObjectId) : dict :=
  dict_set "_id" (VOid o) (stored_record p created updated).

(** The exceptions of the mapper: those of the numeric coercions and the
    one of the model validation. *)
Definition mapper_error (e : exn) : Prop :=
  e = TypeError \/ e = ValueError \/ e = OverflowError \/ e = ValidationError.

(** The keys [_doc_to_product] reads. *)
Definition product_keys : list string :=
  ["_id"; "title"; "description"; "price"; "category"; "in_stock"; "image";
   "rating"; "reviews"].

(** ** Sample data *)

Definition oid_1 : ObjectId := ObjectId_of_N 1.

Definition blue_mug : dict :=
  [ ("_id", VOid oid_1); ("title", VStr "Blue Mug");
    ("price", VInt 12); ("category", VStr "kitchen") ].

Definition refunded : dict :=
  [ ("_id", VOid oid_1); ("title", VStr "Blue Mug");
    ("category", VStr "kitchen"); ("reviews", VInt (-3)) ].

Definition no_rating : ProductIn :=
  mkProductIn "Blue Mug" None (float_of_Z 12) "kitchen" true None
              None (Some 0).

(** A store with a handle and one product, and the same store when [db] is
    [None]. *)
Definition shop : world :=
  mkWorld (Imported (Some tt)) [blue_mug] [] (fun n => Z.of_nat n) O
          (fun n => N.of_nat (n + 2)) O.

Definition closed_shop : world :=
  mkWorld (Imported None) [blue_mug] [] (fun n => Z.of_nat n) O
          (fun n => N.of_nat (n + 2)) O.

Definition mug_in : ProductIn :=
  mkProductIn "Blue Mug" (Some "A mug") (float_of_Z 12) "kitchen" true None
              (Some float_4_5) (Some 3).

Definition shop_db : Database :=
  mkDatabase (Some (VStr "shop")) (Returns ["product"; "order"]).

(** A text of thirty two-byte characters. *)
Definition accents : string :=
  "éééééééééééééééééééééééééééééé".


Definition url_only (name : string) : option string :=
  if String.eqb name "DATABASE_URL" then Some "mongodb://db" else None.

Definition probe_ok : environment :=
  mkEnvironment url_only (ImportedDb (Some shop_db)).


(** ** Identifiers: text form and parsing *)

Lemma hex_byte_roundtrip (b : byte) :
  let n := Byte.to_N b in
  is_space (hex_digit (n / 16)) = false
  /\ hex_value (hex_digit (n / 16)) = Some (n / 16)%N
  /\ hex_value (hex_digit (n mod 16)) = Some (n mod 16)%N
  /\ byte_of_digits (n / 16) (n mod 16) = Some b.
Proof. destruct b; vm_compute; repeat split. Qed.

Lemma fromhex_hexlify (l : list byte) : fromhex (hexlify l) = Some l.
Proof.
  induction l as [|b r IH]; [reflexivity|].
  destruct (hex_byte_roundtrip b) as (Hs & Hhi & Hlo & Hb).
  cbn [hexlify fromhex].
  rewrite Hs, Hhi, Hlo, Hb, IH. reflexivity.
Qed.

Lemma length_hexlify (l : list byte) :
  String.length (hexlify l) = (2 * List.length l)%nat.
Proof.
  induction l as [|b r IH]; [reflexivity|].
  cbn [hexlify String.length List.length]. rewrite IH. lia.
Qed.

Lemma length_bytes_of_N (len : nat) (n : N) :
  List.length (bytes_of_N len n) = len.
Proof.
  revert n. induction len as [|len IH]; intros n; [reflexivity|].
  cbn [bytes_of_N]. rewrite length_app, IH. cbn. lia.
Qed.

(** Text form and parsing are inverse on twelve-byte identifiers. *)
Lemma ObjectId_of_str_str (o : ObjectId) :
  List.length (binary o) = 12%nat ->
  ObjectId_of_str (ObjectId_str o) = Some o.
Proof.
  intros Hlen. unfold ObjectId_of_str, ObjectId_str.
  rewrite length_hexlify, Hlen, fromhex_hexlify.
  destruct o; reflexivity.
Qed.

Lemma bytes_eqb_refl (l : list byte) : bytes_eqb l l = true.
Proof.
  induction l as [|b r IH]; [reflexivity|].
  cbn [bytes_eqb]. unfold byte_eqb. rewrite N.eqb_refl, IH. reflexivity.
Qed.

Lemma ObjectId_eqb_refl (o : ObjectId) : ObjectId_eqb o o = true.
Proof. apply bytes_eqb_refl. Qed.

(** A string whose length is not 24 is not an identifier. *)
Lemma ObjectId_of_str_length (s : string) :
  String.length s <> 24%nat -> ObjectId_of_str s = None.
Proof.
  intros H. unfold ObjectId_of_str.
  destruct (Nat.eqb_spec (String.length s) 24); [contradiction|reflexivity].
Qed.

(** A character that is neither a hexadecimal digit nor white space makes
    [fromhex] fail wherever it stands. *)
Lemma fromhex_bad_char_bounded (n : nat) :
  forall s c, (String.length s <= n)%nat -> In c (chars s) ->
              hex_value c = None -> is_space c = false -> fromhex s = None.
Proof.
  induction n as [|n IH]; intros s c Hlen Hin Hh Hs.
  - destruct s; [contradiction|cbn in Hlen; lia].
  - destruct s as [|a r]; [contradiction|].
    cbn [String.length] in Hlen. cbn [chars] in Hin. cbn [fromhex].
    destruct Hin as [->|Hin]; [now rewrite Hs, Hh|].
    destruct (is_space a); [apply (IH r c); auto; lia|].
    destruct (hex_value a); [|reflexivity].
    destruct r as [|d r']; [reflexivity|].
    cbn [String.length] in Hlen. cbn [chars] in Hin.
    destruct (hex_value d) eqn:Hd; [|reflexivity].
    destruct Hin as [->|Hin]; [congruence|].
    rewrite (IH r' c); auto; [|lia].
    destruct (byte_of_digits n0 n1); reflexivity.
Qed.

Lemma ObjectId_of_str_bad_char (s : string) (c : ascii) :
  In c (chars s) -> hex_value c = None -> is_space c = false ->
  ObjectId_of_str s = None.
Proof.
  intros Hin Hh Hs. unfold ObjectId_of_str.
  rewrite (fromhex_bad_char_bounded (String.length s) s c); auto.
  destruct (Nat.eqb (String.length s) 24); reflexivity.
Qed.

(** ** The filter of [list_products] *)

Lemma matches_nil (doc : dict) : matches [] doc = true.
Proof. reflexivity. Qed.

(** C10. An empty [q] and an empty [category] are treated as not given: the
    filter is the empty dictionary, which matches every document, and the
    call behaves as the call without the two parameters.  Each parameter is
    dropped on its own when it is empty. *)
Theorem empty_parameters_are_absent :
  build_filters (Some EmptyString) (Some EmptyString)
  = build_filters None None
  /\ build_filters (Some EmptyString) (Some EmptyString) = []
  /\ (forall doc,
        matches (build_filters (Some EmptyString) (Some EmptyString)) doc
        = true)
  /\ (forall limit w,
        list_products (Some EmptyString) (Some EmptyString) limit w
        = list_products None None limit w)
  /\ (forall raw w,
        api_list_products (Some EmptyString) (Some EmptyString) raw w
        = api_list_products None None raw w)
  /\ (forall category, build_filters (Some EmptyString) category
                       = build_filters None category)
  /\ (forall q, build_filters q (Some EmptyString) = build_filters q None).
Proof.
  repeat split; reflexivity.
Qed.

(** C1 (amended). For all parameters and every document, the filter built
    by [list_products] holds of the document exactly when the conditions of
    the parameters that are given and not empty hold: for the free text the
    store's case-insensitive regular-expression match of the text on the
    title or on the description, for the category equality with the stored
    category, both when both count, and nothing when none counts. *)
Theorem list_filter_composition (q category : option string) (doc : dict) :
  matches (build_filters q category) doc
  = spec_filter (given q) (given category) doc.
Proof.
  unfold matches, spec_filter, build_filters, given.
  destruct q as [[|a q]|], category as [[|b c]|]; cbn;
    rewrite ?orb_false_r, ?andb_true_r; reflexivity.
Qed.

(** ** The limit of [list_products] *)

Lemma cursor_limit_positive (n : Z) (docs : list dict) :
  1 <= n -> cursor_limit n docs = firstn (Z.to_nat n) docs.
Proof.
  intros Hn. unfold cursor_limit.
  destruct (Z.eqb_spec n 0); [lia|].
  now rewrite Zabs2Nat.abs_nat_nonneg by lia.
Qed.

Lemma docs_to_products_length (docs : list dict) :
  forall ps, docs_to_products docs = Ok ps -> List.length ps = List.length docs.
Proof.
  induction docs as [|doc r IH]; intros ps H; cbn in H.
  - now inversion H.
  - destruct (_doc_to_product doc); [|discriminate]. cbn in H.
    destruct (docs_to_products r) as [ps'|]; [|discriminate]. cbn in H.
    inversion H; subst. cbn. now rewrite (IH ps').
Qed.

Lemma limit_query_in_range (n : Z) :
  1 <= n <= 100 -> limit_query (Some n) = Ok n.
Proof.
  intros [H1 H2]. unfold limit_query.
  destruct (Z.leb_spec 1 n); [|lia]. destruct (Z.leb_spec n 100); [|lia].
  reflexivity.
Qed.

Lemma limit_query_out_of_range (n : Z) :
  n < 1 \/ 100 < n -> limit_query (Some n) = Raise RequestValidationError.
Proof.
  intros H. unfold limit_query.
  destruct (Z.leb_spec 1 n); [|reflexivity].
  destruct (Z.leb_spec n 100); [lia|reflexivity].
Qed.

(** What [list_products] does once the handle is there. *)
Lemma list_products_available (q category : option string) (limit : Z)
      (w : world) :
  database w = Imported (Some tt) ->
  list_products q category limit w
  = (docs_to_products
       (cursor_limit limit
          (filter (matches (build_filters q category)) (product w))),
     record_call (CFind (build_filters q category) limit) w).
Proof.
  intros Hdb. unfold list_products, bind, require_db. rewrite Hdb.
  reflexivity.
Qed.

(** C2. The limit of the list operation: left out, it is 24; a value from 1
    to 100 is passed on to the handler, whose one store query asks for that
    limit and hands over the first that-many matching records at most, so
    that no more products are returned; a value below 1 or above 100 is
    rejected by the parameter validation with a client error, and no store
    call is made. *)
Theorem limit_contract (q category : option string) (w : world) :
  api_list_products q category None w
  = api_list_products q category (Some 24) w
  /\ (forall n, 1 <= n <= 100 ->
        api_list_products q category (Some n) w
        = list_products q category n w
        /\ (database w = Imported (Some tt) ->
            api_list_products q category (Some n) w
            = (docs_to_products
                 (firstn (Z.to_nat n)
                    (filter (matches (build_filters q category)) (product w))),
               record_call (CFind (build_filters q category) n) w))
        /\ (forall ps,
              fst (api_list_products q category (Some n) w) = Ok ps ->
              Z.of_nat (List.length ps) <= n))
  /\ (forall n, n < 1 \/ 100 < n ->
        api_list_products q category (Some n) w
        = (Raise RequestValidationError, w)
        /\ is_client_error RequestValidationError = true).
Proof.
  split; [reflexivity|]. split.
  - intros n Hn.
    assert (Hapi : api_list_products q category (Some n) w
                   = list_products q category n w).
    { unfold api_list_products, bind, lift.
      now rewrite (limit_query_in_range n Hn). }
    split; [exact Hapi|]. split.
    + intros Hdb. rewrite Hapi, (list_products_available _ _ _ _ Hdb).
      now rewrite cursor_limit_positive by lia.
    + intros ps. rewrite Hapi.
      unfold list_products, bind, require_db.
      destruct (database w) as [|[[]|]]; cbn; try discriminate.
      intros H. apply docs_to_products_length in H. rewrite H.
      rewrite cursor_limit_positive by lia.
      rewrite length_firstn. lia.
  - intros n Hn. split; [|reflexivity].
    unfold api_list_products, bind, lift.
    now rewrite (limit_query_out_of_range n Hn).
Qed.

(** ** The mapper [_doc_to_product] *)

Lemma dict_get_default_absent (k : string) (v : value) (d : dict) :
  dict_get k d = None -> dict_get_default k v d = v.
Proof. intros H. unfold dict_get_default. now rewrite H. Qed.

Lemma dict_get_default_present (k : string) (v x : value) (d : dict) :
  dict_get k d = Some x -> dict_get_default k v d = x.
Proof. intros H. unfold dict_get_default. now rewrite H. Qed.

Lemma py_float_zero : py_float (VInt 0) = Ok float_zero.
Proof. reflexivity. Qed.

(** A product comes out only when every coercion and every field check went
    through, and then each field is the outcome of its own coercion. *)
Lemma doc_to_product_inv (doc : dict) (p : ProductOut) :
  _doc_to_product doc = Ok p ->
  exists pr ra re t d c i,
    py_float (dict_get_default "price" (VInt 0) doc) = Ok pr
    /\ py_float (dict_get_default "rating" (VFloat float_4_5) doc) = Ok ra
    /\ py_int (dict_get_default "reviews" (VInt 0) doc) = Ok re
    /\ validate_str (dict_get_none "title" doc) = Ok t
    /\ validate_opt_str (dict_get_none "description" doc) = Ok d
    /\ validate_str (dict_get_none "category" doc) = Ok c
    /\ validate_opt_str (dict_get_none "image" doc) = Ok i
    /\ p = mkProductOut (py_str (dict_get_none "_id" doc))
             (mkProductIn t d pr c
                (truthy (dict_get_default "in_stock" (VBool true) doc))
                i (Some ra) (Some re)).
Proof.
  unfold _doc_to_product, rbind. intros H.
  destruct (py_float (dict_get_default "price" (VInt 0) doc)) as [pr|];
    [|discriminate].
  destruct (py_float (dict_get_default "rating" (VFloat float_4_5) doc))
    as [ra|]; [|discriminate].
  destruct (py_int (dict_get_default "reviews" (VInt 0) doc)) as [re|];
    [|discriminate].
  destruct (validate_str (dict_get_none "title" doc)) as [t|]; [|discriminate].
  destruct (validate_opt_str (dict_get_none "description" doc)) as [d|];
    [|discriminate].
  destruct (validate_str (dict_get_none "category" doc)) as [c|];
    [|discriminate].
  destruct (validate_opt_str (dict_get_none "image" doc)) as [i|];
    [|discriminate].
  inversion H; subst. exists pr, ra, re, t, d, c, i. repeat split.
Qed.

Lemma validate_opt_str_ok (k : string) (doc : dict) (d : option string) :
  validate_opt_str (dict_get_none k doc) = Ok d
  <-> optional_text (dict_get k doc) d.
Proof.
  unfold dict_get_none, dict_get_default, optional_text.
  destruct (dict_get k doc) as [[]|]; cbn; split; intros H;
    try discriminate; try contradiction; congruence.
Qed.

Lemma validate_str_iff (k : string) (doc : dict) (s : string) :
  validate_str (dict_get_none k doc) = Ok s
  <-> dict_get k doc = Some (VStr s).
Proof.
  unfold dict_get_none, dict_get_default.
  destruct (dict_get k doc) as [[]|]; cbn; split; intros H;
    try discriminate; congruence.
Qed.

(** A record gives a product exactly when every field can be filled, and
    the product is then made of the fields so filled: the stored value
    coerced where the key is there, the default where it is missing. *)
Lemma doc_to_product_iff (doc : dict) (p : ProductOut) :
  _doc_to_product doc = Ok p
  <-> exists t c pr ra re d i,
        dict_get "title" doc = Some (VStr t)
        /\ dict_get "category" doc = Some (VStr c)
        /\ match dict_get "price" doc with
           | Some v => py_float v
           | None => Ok float_zero
           end = Ok pr
        /\ match dict_get "rating" doc with
           | Some v => py_float v
           | None => Ok float_4_5
           end = Ok ra
        /\ match dict_get "reviews" doc with
           | Some v => py_int v
           | None => Ok 0
           end = Ok re
        /\ optional_text (dict_get "description" doc) d
        /\ optional_text (dict_get "image" doc) i
        /\ p = mkProductOut
                 (py_str match dict_get "_id" doc with
                         | Some v => v
                         | None => VNone
                         end)
                 (mkProductIn t d pr c
                    match dict_get "in_stock" doc with
                    | Some v => truthy v
                    | None => true
                    end
                    i (Some ra) (Some re)).
Proof.
  assert (Hprice : py_float (dict_get_default "price" (VInt 0) doc)
                   = match dict_get "price" doc with
                     | Some v => py_float v
                     | None => Ok float_zero
                     end).
  { unfold dict_get_default. destruct (dict_get "price" doc);
      [reflexivity|apply py_float_zero]. }
  assert (Hrating : py_float (dict_get_default "rating" (VFloat float_4_5) doc)
                    = match dict_get "rating" doc with
                      | Some v => py_float v
                      | None => Ok float_4_5
                      end).
  { unfold dict_get_default. now destruct (dict_get "rating" doc). }
  assert (Hreviews : py_int (dict_get_default "reviews" (VInt 0) doc)
                     = match dict_get "reviews" doc with
                       | Some v => py_int v
                       | None => Ok 0
                       end).
  { unfold dict_get_default. now destruct (dict_get "reviews" doc). }
  assert (Hstock : truthy (dict_get_default "in_stock" (VBool true) doc)
                   = match dict_get "in_stock" doc with
                     | Some v => truthy v
                     | None => true
                     end).
  { unfold dict_get_default. now destruct (dict_get "in_stock" doc). }
  split.
  - intros H.
    destruct (doc_to_product_inv doc p H)
      as (pr & ra & re & t & d & c & i & Hpr & Hra & Hre & Ht & Hd & Hc & Hi
          & ->).
    exists t, c, pr, ra, re, d, i.
    rewrite <- Hprice, <- Hrating, <- Hreviews, <- Hstock.
    repeat split; auto.
    + now apply validate_str_iff.
    + now apply validate_str_iff.
    + now apply validate_opt_str_ok.
    + now apply validate_opt_str_ok.
  - intros (t & c & pr & ra & re & d & i & Ht & Hc & Hpr & Hra & Hre & Hd
            & Hi & ->).
    rewrite <- Hprice in Hpr. rewrite <- Hrating in Hra.
    rewrite <- Hreviews in Hre. rewrite <- Hstock.
    apply validate_str_iff in Ht, Hc. apply validate_opt_str_ok in Hd, Hi.
    unfold _doc_to_product.
    rewrite Hpr, Hra, Hre, Ht, Hd, Hc, Hi. reflexivity.
Qed.

(** C3. For every record, [_doc_to_product] gives [id] the text form of
    ["_id"] (the 24 hexadecimal digits of an identifier), and a key that is
    missing gets its default: [price] the float of 0, [in_stock] true,
    [rating] 4.5, [reviews] 0, [description] and [image] no value; a key
    that is there is coerced from what is stored.  A record with a string
    title and category and none of the other keys does give a product, the
    one with these defaults; and in general a record gives a product
    exactly when its title and category are strings, its description and
    image are a string, [None] or missing, and the coercions of the price,
    the rating and the review count (of what is stored, or of the default
    when the key is missing) go through, and the product is then made of
    exactly these fields. *)
Theorem doc_to_product_defaults (doc : dict) :
  (forall p, _doc_to_product doc = Ok p ->
     id p = py_str (dict_get_none "_id" doc)
     /\ (forall o, dict_get "_id" doc = Some (VOid o) -> id p = ObjectId_str o)
     /\ (dict_get "price" doc = None -> price p = float_zero)
     /\ (dict_get "in_stock" doc = None -> in_stock p = true)
     /\ (dict_get "rating" doc = None -> rating p = Some float_4_5)
     /\ (dict_get "reviews" doc = None -> reviews p = Some 0)
     /\ (dict_get "description" doc = None -> description p = None)
     /\ (dict_get "image" doc = None -> image p = None)
     /\ (forall v, dict_get "price" doc = Some v ->
                   py_float v = Ok (price p))
     /\ (forall v, dict_get "in_stock" doc = Some v -> in_stock p = truthy v)
     /\ (forall v, dict_get "rating" doc = Some v ->
                   exists r, rating p = Some r /\ py_float v = Ok r)
     /\ (forall v, dict_get "reviews" doc = Some v ->
                   exists n, reviews p = Some n /\ py_int v = Ok n))
  /\ (forall t c,
        dict_get "title" doc = Some (VStr t) ->
        dict_get "category" doc = Some (VStr c) ->
        dict_get "price" doc = None ->
        dict_get "in_stock" doc = None ->
        dict_get "rating" doc = None ->
        dict_get "reviews" doc = None ->
        dict_get "description" doc = None ->
        dict_get "image" doc = None ->
        _doc_to_product doc
        = Ok (mkProductOut (py_str (dict_get_none "_id" doc))
                (mkProductIn t None float_zero c true None
                   (Some float_4_5) (Some 0))))
  /\ (forall p,
        _doc_to_product doc = Ok p
        <-> exists t c pr ra re d i,
              dict_get "title" doc = Some (VStr t)
              /\ dict_get "category" doc = Some (VStr c)
              /\ match dict_get "price" doc with
                 | Some v => py_float v
                 | None => Ok float_zero
                 end = Ok pr
              /\ match dict_get "rating" doc with
                 | Some v => py_float v
                 | None => Ok float_4_5
                 end = Ok ra
              /\ match dict_get "reviews" doc with
                 | Some v => py_int v
                 | None => Ok 0
                 end = Ok re
              /\ optional_text (dict_get "description" doc) d
              /\ optional_text (dict_get "image" doc) i
              /\ p = mkProductOut
                       (py_str match dict_get "_id" doc with
                               | Some v => v
                               | None => VNone
                               end)
                       (mkProductIn t d pr c
                          match dict_get "in_stock" doc with
                          | Some v => truthy v
                          | None => true
                          end
                          i (Some ra) (Some re))).
Proof.
  split; [|split; [|intros p; apply doc_to_product_iff]].
  - intros p H.
    destruct (doc_to_product_inv doc p H)
      as (pr & ra & re & t & d & c & i & Hpr & Hra & Hre & Ht & Hd & Hc & Hi
          & ->).
    cbn [id fields price in_stock rating reviews description image].
    repeat split.
    + intros o Ho. unfold dict_get_none.
      now rewrite (dict_get_default_present _ _ _ _ Ho).
    + intros Ha. rewrite (dict_get_default_absent _ _ _ Ha) in Hpr.
      rewrite py_float_zero in Hpr. congruence.
    + intros Ha. now rewrite (dict_get_default_absent _ _ _ Ha).
    + intros Ha. rewrite (dict_get_default_absent _ _ _ Ha) in Hra.
      cbn in Hra. congruence.
    + intros Ha. rewrite (dict_get_default_absent _ _ _ Ha) in Hre.
      cbn in Hre. congruence.
    + intros Ha. unfold dict_get_none in Hd.
      rewrite (dict_get_default_absent _ _ _ Ha) in Hd. cbn in Hd. congruence.
    + intros Ha. unfold dict_get_none in Hi.
      rewrite (dict_get_default_absent _ _ _ Ha) in Hi. cbn in Hi. congruence.
    + intros v Hv. now rewrite (dict_get_default_present _ _ _ _ Hv) in Hpr.
    + intros v Hv. now rewrite (dict_get_default_present _ _ _ _ Hv).
    + intros v Hv. rewrite (dict_get_default_present _ _ _ _ Hv) in Hra.
      now exists ra.
    + intros v Hv. rewrite (dict_get_default_present _ _ _ _ Hv) in Hre.
      now exists re.
  - intros t c Ht Hc Hpr Hst Hra Hre Hd Hi.
    unfold _doc_to_product, dict_get_none.
    rewrite (dict_get_default_absent _ _ _ Hpr),
            (dict_get_default_absent _ _ _ Hra),
            (dict_get_default_absent _ _ _ Hre),
            (dict_get_default_absent _ _ _ Hst),
            (dict_get_default_absent _ _ _ Hd),
            (dict_get_default_absent _ _ _ Hi),
            (dict_get_default_present _ _ _ _ Ht),
            (dict_get_default_present _ _ _ _ Hc), py_float_zero.
    reflexivity.
Qed.

Local Ltac solve_kind := split; [auto|reflexivity].

(** C9. A default stands in for a missing key only.  When ["price"],
    ["rating"] or ["reviews"] is stored with the value [None], no product
    comes out: the call ends with an exception of a numeric coercion (a
    server error), which is the [TypeError] of the coercion of [None] when
    ["price"] is the null one. *)
Theorem null_numeric_field_raises (doc : dict) :
  dict_get "price" doc = Some VNone
  \/ dict_get "rating" doc = Some VNone
  \/ dict_get "reviews" doc = Some VNone ->
  (exists e, _doc_to_product doc = Raise e
             /\ (e = TypeError \/ e = ValueError \/ e = OverflowError)
             /\ http_status e = 500)
  /\ (dict_get "price" doc = Some VNone ->
      _doc_to_product doc = Raise TypeError)
  /\ py_float VNone = Raise TypeError
  /\ py_int VNone = Raise TypeError.
Proof using float_of_str int_of_str str_other.
  intros H. split; [|split; [|split; reflexivity]].
  - unfold _doc_to_product, rbind.
    destruct (py_float (dict_get_default "price" (VInt 0) doc))
      as [pr|e] eqn:Hpr.
    + destruct (py_float (dict_get_default "rating" (VFloat float_4_5) doc))
        as [ra|e] eqn:Hra.
      * destruct (py_int (dict_get_default "reviews" (VInt 0) doc))
          as [re|e] eqn:Hre.
        -- exfalso. destruct H as [H|[H|H]].
           ++ rewrite (dict_get_default_present _ _ _ _ H) in Hpr. discriminate.
           ++ rewrite (dict_get_default_present _ _ _ _ H) in Hra. discriminate.
           ++ rewrite (dict_get_default_present _ _ _ _ H) in Hre. discriminate.
        -- exists e. split; [reflexivity|].
           unfold py_int in Hre.
           destruct (dict_get_default "reviews" (VInt 0) doc) as
             [| | |[]|s| | | |]; try discriminate;
             try (inversion Hre; subst; cbn; solve_kind).
           destruct (int_of_str s); [discriminate|].
           inversion Hre; subst; cbn; solve_kind.
      * exists e. split; [reflexivity|].
        unfold py_float in Hra.
        destruct (dict_get_default "rating" (VFloat float_4_5) doc) as
          [|b|z| |s| | | |]; try discriminate;
          try (inversion Hra; subst; cbn; solve_kind).
        -- destruct (float_of_Z z); try discriminate.
           inversion Hra; subst; cbn; solve_kind.
        -- destruct (float_of_str s); [discriminate|].
           inversion Hra; subst; cbn; solve_kind.
    + exists e. split; [reflexivity|].
      unfold py_float in Hpr.
      destruct (dict_get_default "price" (VInt 0) doc) as
        [|b|z| |s| | | |]; try discriminate;
        try (inversion Hpr; subst; cbn; solve_kind).
      -- destruct (float_of_Z z); try discriminate.
         inversion Hpr; subst; cbn; solve_kind.
      -- destruct (float_of_str s); [discriminate|].
         inversion Hpr; subst; cbn; solve_kind.
  - intros Hp. unfold _doc_to_product.
    now rewrite (dict_get_default_present _ _ _ _ Hp).
Qed.

(** C8 (amended). For every product that [_doc_to_product] gives, [reviews]
    is the integer coercion of the stored value, 0 when the key is missing;
    a stored integer is kept as it is, its sign included. *)
Theorem reviews_is_int_coercion (doc : dict) (p : ProductOut) :
  _doc_to_product doc = Ok p ->
  exists n,
    reviews p = Some n
    /\ py_int (dict_get_default "reviews" (VInt 0) doc) = Ok n
    /\ (forall z, dict_get "reviews" doc = Some (VInt z) -> n = z)
    /\ (dict_get "reviews" doc = None -> n = 0).
Proof.
  intros H.
  destruct (doc_to_product_inv doc p H)
    as (pr & ra & re & t & d & c & i & _ & _ & Hre & _ & _ & _ & _ & ->).
  exists re. cbn [fields reviews]. repeat split; [exact Hre| |].
  - intros z Hz. rewrite (dict_get_default_present _ _ _ _ Hz) in Hre.
    cbn in Hre. congruence.
  - intros Ha. rewrite (dict_get_default_absent _ _ _ Ha) in Hre.
    cbn in Hre. congruence.
Qed.

(** ** [get_product] *)

Lemma matches_id (v : value) (d : dict) :
  matches [("_id", v)] d = field_clause "_id" v d.
Proof. unfold matches. cbn. apply andb_true_r. Qed.

Lemma matches_oid (o : ObjectId) (d : dict) :
  matches [("_id", VOid o)] d = field_equals "_id" (VOid o) d.
Proof. apply matches_id. Qed.

Lemma matches_oid_nonempty (o : ObjectId) (d : dict) :
  matches [("_id", VOid o)] d = true -> truthy (VDict d) = true.
Proof.
  rewrite matches_oid. destruct d; [discriminate|reflexivity].
Qed.

(** C4 (amended). For every [product_id], once the database handle is there
    (its test comes first), [get_product] parses the identifier before it
    asks the store: a string the identifier constructor refuses, as it does
    every string that is not 24 characters long and every string with a
    character that is neither a hexadecimal digit nor white space, ends the
    call with status 400 and without a store call; a string it accepts leads
    to exactly one find-by-identifier, with status 404 when no record has
    that identifier and the mapped record otherwise. *)
Theorem get_product_order (product_id : string) (w : world) :
  database w = Imported (Some tt) ->
  (ObjectId_of_str product_id = None ->
   get_product product_id w
   = (Raise (HTTPException 400 "Invalid product id"), w))
  /\ (forall oid, ObjectId_of_str product_id = Some oid ->
        snd (get_product product_id w)
        = record_call (CFindOne [("_id", VOid oid)]) w
        /\ (forall d, matches [("_id", VOid oid)] d
                      = field_equals "_id" (VOid oid) d)
        /\ (List.find (matches [("_id", VOid oid)]) (product w) = None ->
            fst (get_product product_id w)
            = Raise (HTTPException 404 "Product not found"))
        /\ (forall d,
              List.find (matches [("_id", VOid oid)]) (product w) = Some d ->
              fst (get_product product_id w) = _doc_to_product d))
  /\ (String.length product_id <> 24%nat -> ObjectId_of_str product_id = None)
  /\ (forall c, In c (chars product_id) -> hex_value c = None ->
                is_space c = false -> ObjectId_of_str product_id = None).
Proof.
  intros Hdb. split; [|split; [|split]].
  - intros Hbad. unfold get_product, bind, require_db.
    rewrite Hdb, Hbad. reflexivity.
  - intros oid Hok. unfold get_product, bind, require_db, find_one.
    rewrite Hdb, Hok.
    destruct (List.find (matches [("_id", VOid oid)]) (product w))
      as [d|] eqn:Hfind.
    + apply find_some in Hfind. destruct Hfind as [_ Hm].
      rewrite (matches_oid_nonempty _ _ Hm). cbn.
      repeat split; [apply matches_oid|discriminate|].
      intros d' Hd'. now inversion Hd'.
    + cbn. repeat split; [apply matches_oid|discriminate].
  - apply ObjectId_of_str_length.
  - apply ObjectId_of_str_bad_char.
Qed.

(** ** The database handle *)

(** C6 (amended). When the import of the database module fails or [db] is
    [None], each handler ends with status 503 and leaves the world as it
    was, so that no store call has been made: [get_product],
    [create_product] and [list_categories] for every argument, and
    [list_products] for every argument the handler is entered with, that is
    whenever the [limit] parameter passes its validation. *)
Theorem unavailable_is_503 (w : world) :
  database w = ImportFails \/ database w = Imported None ->
  http_status not_configured = 503
  /\ (forall q category limit,
        list_products q category limit w = (Raise not_configured, w))
  /\ (forall q category raw limit,
        limit_query raw = Ok limit ->
        api_list_products q category raw w = (Raise not_configured, w))
  /\ (forall product_id, get_product product_id w = (Raise not_configured, w))
  /\ (forall p, create_product p w = (Raise not_configured, w))
  /\ list_categories w = (Raise not_configured, w).
Proof.
  intros H.
  assert (Hreq : require_db w = (Raise not_configured, w)).
  { unfold require_db. destruct H as [-> | ->]; reflexivity. }
  split; [reflexivity|]. repeat split.
  - intros. unfold list_products, bind. now rewrite Hreq.
  - intros q category raw limit Hl.
    unfold api_list_products, bind, lift. rewrite Hl.
    unfold list_products, bind. now rewrite Hreq.
  - intros. unfold get_product, bind. now rewrite Hreq.
  - intros. unfold create_product, bind. now rewrite Hreq.
  - unfold list_categories, bind. now rewrite Hreq.
Qed.

(** ** [list_categories] *)

(** C7. Whatever sequence of distinct category values the store returns,
    [list_categories] returns its truthy elements, in the store's order: a
    value is in the result exactly when it is in the store's sequence and is
    truthy, and neither the empty string nor [None] is ever in it. *)
Theorem list_categories_truthy (w : world) :
  database w = Imported (Some tt) ->
  let categories := distinct_values "category" (product w) in
  list_categories w
  = (Ok (filter truthy categories), record_call (CDistinct "category") w)
  /\ (forall c, In c (filter truthy categories)
                <-> In c categories /\ truthy c = true)
  /\ ~ In (VStr EmptyString) (filter truthy categories)
  /\ ~ In VNone (filter truthy categories).
Proof.
  intros Hdb categories. split; [|split; [|split]].
  - unfold list_categories, bind, require_db, distinct, ret. rewrite Hdb.
    reflexivity.
  - intros c. apply filter_In.
  - intros Hin. apply filter_In in Hin. destruct Hin as [_ Hn]. discriminate.
  - intros Hin. apply filter_In in Hin. destruct Hin as [_ Hn]. discriminate.
Qed.

(** ** [create_product] followed by [get_product] *)

Lemma find_last {A} (f : A -> bool) (l : list A) (x : A) :
  existsb f l = false -> f x = true -> List.find f (l ++ [x])%list = Some x.
Proof.
  intros Hl Hx. induction l as [|a l IH]; cbn in *.
  - now rewrite Hx.
  - apply orb_false_iff in Hl. destruct Hl as [Ha Hl].
    rewrite Ha. now apply IH.
Qed.

Lemma existsb_pointwise {A} (f g : A -> bool) (l : list A) :
  (forall a, f a = g a) -> existsb f l = existsb g l.
Proof.
  intros Hfg. induction l as [|a l IH]; [reflexivity|].
  cbn. now rewrite Hfg, IH.
Qed.

Lemma stored_document_id (p : ProductIn) (t1 t2 : Z) (o : ObjectId) :
  field_equals "_id" (VOid o) (stored_document p t1 t2 o) = true.
Proof.
  unfold field_equals, stored_document, stored_record. cbn.
  apply ObjectId_eqb_refl.
Qed.

(** A successful [create_product]: the handle was there, the identifier
    returned is the text of a fresh twelve-byte identifier that no document
    had, and the document went last into the collection. *)
Lemma create_product_inv (p : ProductIn) (w w' : world) (s : string) :
  create_product p w = (Ok s, w') ->
  let o := ObjectId_of_N (oid_source w (oids w)) in
  database w = Imported (Some tt)
  /\ s = ObjectId_str o
  /\ existsb (field_equals "_id" (VOid o)) (product w) = false
  /\ database w' = database w
  /\ product w'
     = (product w
        ++ [stored_document p (clock w (ticks w)) (clock w (S (ticks w))) o]
       )%list.
Proof.
  unfold create_product, bind, require_db.
  destruct (database w) as [|[[]|]] eqn:Hdb; try discriminate.
  unfold now, insert_one, ret. cbn.
  destruct (existsb _ (product w)) eqn:Hex; [discriminate|].
  intros H. inversion H; subst. cbn. repeat split; assumption.
Qed.

(** After a successful [create_product], [get_product] on the identifier
    returned reaches the mapper with the document that was stored. *)
Lemma get_after_create (p : ProductIn) (w w' : world) (s : string) :
  create_product p w = (Ok s, w') ->
  fst (get_product s w')
  = _doc_to_product
      (stored_document p (clock w (ticks w)) (clock w (S (ticks w)))
         (ObjectId_of_N (oid_source w (oids w)))).
Proof.
  intros H. destruct (create_product_inv p w w' s H)
    as (Hdb & -> & Hfresh & Hdb' & Hprod).
  set (o := ObjectId_of_N (oid_source w (oids w))) in *.
  set (d := stored_document _ _ _ o) in *.
  unfold get_product, bind, require_db, find_one.
  rewrite Hdb', Hdb.
  rewrite (ObjectId_of_str_str o) by apply length_bytes_of_N.
  rewrite Hprod.
  assert (Hd : matches [("_id", VOid o)] d = true).
  { rewrite matches_oid. apply stored_document_id. }
  rewrite (find_last (matches [("_id", VOid o)]) (product w) d).
  - rewrite (matches_oid_nonempty _ _ Hd). reflexivity.
  - rewrite (existsb_pointwise _ (field_equals "_id" (VOid o)));
      [exact Hfresh|intros a; apply matches_oid].
  - exact Hd.
Qed.

(** X1. Away from the null case the round trip holds: with a [rating] and
    a [reviews] value in the input, the product read back after a
    successful [create_product] is the input under the identifier
    returned. *)
Lemma create_get_roundtrip (p : ProductIn) (w w' : world) (s : string)
      (r : float) (n : Z) :
  rating p = Some r -> reviews p = Some n ->
  create_product p w = (Ok s, w') ->
  fst (get_product s w') = Ok (mkProductOut s p).
Proof.
  intros Hr Hn H. rewrite (get_after_create p w w' s H).
  destruct (create_product_inv p w w' s H) as (_ & -> & _).
  destruct p as [t d pr c st i ra re]. cbn in Hr, Hn. subst ra re.
  unfold _doc_to_product, stored_document, stored_record. cbn.
  destruct d, i, st; reflexivity.
Qed.

(** C5 (the defect). A [ProductIn] may carry [rating] or [reviews] as
    [None]; [create_product] stores it so and returns an identifier, and
    [get_product] on that identifier does not return the product: it ends
    with the [TypeError] of the numeric coercion of [None]. *)
Theorem create_get_null_field (p : ProductIn) (w w' : world) (s : string) :
  rating p = None \/ reviews p = None ->
  create_product p w = (Ok s, w') ->
  fst (get_product s w') = Raise TypeError.
Proof.
  intros Hnull H. rewrite (get_after_create p w w' s H).
  destruct p as [t d pr c st i ra re]. cbn in Hnull.
  unfold _doc_to_product, stored_document, stored_record. cbn.
  destruct Hnull as [-> | ->]; [reflexivity|].
  destruct ra; reflexivity.
Qed.

(** ** What [create_product] does to the store *)

Lemma bytes_eqb_eq (a b : list byte) : bytes_eqb a b = true -> a = b.
Proof.
  revert b. induction a as [|x a IH]; intros [|y b] H; cbn in H;
    try discriminate; [reflexivity|].
  apply andb_true_iff in H. destruct H as [Hxy Hab].
  unfold byte_eqb in Hxy. apply N.eqb_eq in Hxy.
  assert (Hb : Some x = Some y)
    by (rewrite <- (Byte.of_to_N x), <- (Byte.of_to_N y); now rewrite Hxy).
  inversion Hb; subst. now rewrite (IH b Hab).
Qed.

Lemma ObjectId_eqb_eq (a b : ObjectId) : ObjectId_eqb a b = true -> a = b.
Proof.
  destruct a as [x], b as [y]. unfold ObjectId_eqb. cbn.
  intros H. now rewrite (bytes_eqb_eq x y H).
Qed.

(** A document matches [{"_id": oid}] when its ["_id"] is that identifier. *)
Lemma field_equals_oid (o : ObjectId) (d : dict) :
  field_equals "_id" (VOid o) d = true -> dict_get "_id" d = Some (VOid o).
Proof.
  unfold field_equals. destruct (dict_get "_id" d) as [v|]; [|discriminate].
  destruct v; cbn; try discriminate.
  intros H. now rewrite (ObjectId_eqb_eq _ _ H).
Qed.

(** [get_product] once the handle is there. *)
Lemma get_product_available (product_id : string) (w : world) :
  database w = Imported (Some tt) ->
  fst (get_product product_id w)
  = match ObjectId_of_str product_id with
    | None => Raise (HTTPException 400 "Invalid product id")
    | Some oid =>
        match List.find (matches [("_id", VOid oid)]) (product w) with
        | None => Raise (HTTPException 404 "Product not found")
        | Some d => _doc_to_product d
        end
    end.
Proof.
  intros Hdb. unfold get_product, bind, require_db, find_one. rewrite Hdb.
  destruct (ObjectId_of_str product_id) as [oid|]; [|reflexivity].
  destruct (List.find (matches [("_id", VOid oid)]) (product w))
    as [d|] eqn:Hfind; [|reflexivity].
  apply find_some in Hfind. destruct Hfind as [_ Hm].
  now rewrite (matches_oid_nonempty _ _ Hm).
Qed.

Lemma get_product_unavailable (product_id : string) (w : world) :
  database w <> Imported (Some tt) ->
  get_product product_id w = (Raise not_configured, w).
Proof.
  intros Hdb. unfold get_product, bind, require_db.
  destruct (database w) as [|[[]|]]; try reflexivity. now destruct Hdb.
Qed.

Lemma find_app_some {A} (f : A -> bool) (l l' : list A) (x : A) :
  List.find f l = Some x -> List.find f (l ++ l')%list = Some x.
Proof.
  induction l as [|a l IH]; cbn; [discriminate|].
  destruct (f a); [trivial|exact IH].
Qed.

(** X2. With the handle there and the identifier drawn not yet in the
    collection, [create_product] succeeds: it reads the clock twice, makes
    one [insert_one] call with the eight fields of the input and the two
    timestamps (and no identifier of the caller's), puts that document with
    the fresh identifier last in the collection, leaves the documents that
    were there as they were, and returns the identifier's text. *)
Theorem create_product_effect (p : ProductIn) (w : world) :
  database w = Imported (Some tt) ->
  let o := ObjectId_of_N (oid_source w (oids w)) in
  let data := stored_record p (clock w (ticks w)) (clock w (S (ticks w))) in
  existsb (field_equals "_id" (VOid o)) (product w) = false ->
  exists w',
    create_product p w = (Ok (ObjectId_str o), w')
    /\ product w' = (product w ++ [dict_set "_id" (VOid o) data])%list
    /\ calls w' = (calls w ++ [CInsertOne data])%list
    /\ ticks w' = S (S (ticks w))
    /\ oids w' = S (oids w)
    /\ database w' = database w
    /\ map fst data
       = ["title"; "description"; "price"; "category"; "in_stock"; "image";
          "rating"; "reviews"; "created_at"; "updated_at"].
Proof.
  intros Hdb o data Hfresh.
  unfold create_product, bind, require_db. rewrite Hdb.
  unfold now, insert_one, ret. cbn.
  fold o. rewrite Hfresh. eexists. split; [reflexivity|].
  cbn. repeat split; auto.
Qed.

(** X3. Whatever its outcome, [create_product] never alters or removes a
    stored document: when it fails the collection is as it was, and when it
    succeeds the collection is the old one followed by one new document,
    whose ["_id"] is the identifier returned. *)
Theorem create_product_only_appends (p : ProductIn) (w : world) :
  (exists e, fst (create_product p w) = Raise e
             /\ product (snd (create_product p w)) = product w)
  \/ (exists s d o,
        fst (create_product p w) = Ok s
        /\ product (snd (create_product p w)) = (product w ++ [d])%list
        /\ dict_get "_id" d = Some (VOid o)
        /\ ObjectId_str o = s).
Proof.
  unfold create_product, bind, require_db.
  destruct (database w) as [|[[]|]]; cbn;
    try (left; eexists; split; reflexivity).
  unfold now, insert_one, ret. cbn.
  destruct (existsb _ (product w)); cbn.
  - left. eexists. split; reflexivity.
  - right. do 3 eexists. repeat split; reflexivity.
Qed.

Lemma py_float_error (v : value) (e : exn) :
  py_float v = Raise e -> mapper_error e.
Proof.
  unfold py_float, mapper_error. destruct v as [|b|z|f|s|o|t|l|d];
    try (intros H; inversion H; auto; fail).
  - destruct (float_of_Z z); intros H; inversion H; auto.
  - destruct (float_of_str s); intros H; inversion H; auto.
Qed.

Lemma py_int_error (v : value) (e : exn) :
  py_int v = Raise e -> mapper_error e.
Proof.
  unfold py_int, mapper_error. destruct v as [|b|z|f|s|o|t|l|d];
    try (intros H; inversion H; auto; fail).
  - destruct f; intros H; inversion H; auto.
  - destruct (int_of_str s); intros H; inversion H; auto.
Qed.

Lemma validate_str_error (v : value) (e : exn) :
  validate_str v = Raise e -> mapper_error e.
Proof.
  unfold mapper_error. destruct v; intros H; inversion H; auto.
Qed.

Lemma validate_opt_str_error (v : value) (e : exn) :
  validate_opt_str v = Raise e -> mapper_error e.
Proof.
  unfold mapper_error. destruct v; intros H; inversion H; auto.
Qed.

Lemma doc_to_product_error (doc : dict) (e : exn) :
  _doc_to_product doc = Raise e -> mapper_error e.
Proof.
  unfold _doc_to_product, rbind.
  destruct (py_float (dict_get_default "price" (VInt 0) doc)) eqn:H1;
    [|intros H; inversion H; subst; eauto using py_float_error].
  destruct (py_float (dict_get_default "rating" (VFloat float_4_5) doc))
    eqn:H2; [|intros H; inversion H; subst; eauto using py_float_error].
  destruct (py_int (dict_get_default "reviews" (VInt 0) doc)) eqn:H3;
    [|intros H; inversion H; subst; eauto using py_int_error].
  destruct (validate_str (dict_get_none "title" doc)) eqn:H4;
    [|intros H; inversion H; subst; eauto using validate_str_error].
  destruct (validate_opt_str (dict_get_none "description" doc)) eqn:H5;
    [|intros H; inversion H; subst; eauto using validate_opt_str_error].
  destruct (validate_str (dict_get_none "category" doc)) eqn:H6;
    [|intros H; inversion H; subst; eauto using validate_str_error].
  destruct (validate_opt_str (dict_get_none "image" doc)) eqn:H7;
    [|intros H; inversion H; subst; eauto using validate_opt_str_error].
  discriminate.
Qed.

Lemma mapper_error_status (e : exn) : mapper_error e -> http_status e = 500.
Proof. intros [-> | [-> | [-> | ->]]]; reflexivity. Qed.

(** X4. The identifier a successful [create_product] returns is 24
    characters long and is accepted by the identifier constructor, which
    gives back the twelve bytes it is the text of: [get_product] never
    answers 400 or 404 to it. *)
Theorem created_id_well_formed (p : ProductIn) (w w' : world) (s : string) :
  create_product p w = (Ok s, w') ->
  String.length s = 24%nat
  /\ (exists oid, ObjectId_of_str s = Some oid
                  /\ List.length (binary oid) = 12%nat
                  /\ ObjectId_str oid = s)
  /\ (forall e, fst (get_product s w') = Raise e -> http_status e = 500).
Proof.
  intros H.
  pose proof (get_after_create p w w' s H) as Hget.
  destruct (create_product_inv p w w' s H) as (Hdb & -> & _).
  set (o := ObjectId_of_N (oid_source w (oids w))) in *.
  assert (Hlen : List.length (binary o) = 12%nat)
    by apply length_bytes_of_N.
  split; [|split].
  - unfold ObjectId_str. now rewrite length_hexlify, Hlen.
  - exists o. repeat split; auto using ObjectId_of_str_str.
  - intros e He. rewrite Hget in He.
    apply mapper_error_status. eapply doc_to_product_error. exact He.
Qed.

Lemma ObjectId_str_inj (a b : ObjectId) :
  List.length (binary a) = 12%nat -> List.length (binary b) = 12%nat ->
  ObjectId_str a = ObjectId_str b -> a = b.
Proof.
  intros Ha Hb Heq.
  assert (Hs : ObjectId_of_str (ObjectId_str a)
               = ObjectId_of_str (ObjectId_str b)) by now rewrite Heq.
  rewrite (ObjectId_of_str_str a Ha), (ObjectId_of_str_str b Hb) in Hs.
  congruence.
Qed.

(** X5. [create_product] is not idempotent: two calls that both succeed,
    one after the other, return different identifiers and leave two more
    documents in the collection, even for the same input. *)
Theorem create_twice_distinct (p1 p2 : ProductIn) (w w1 w2 : world)
        (s1 s2 : string) :
  create_product p1 w = (Ok s1, w1) ->
  create_product p2 w1 = (Ok s2, w2) ->
  s1 <> s2
  /\ List.length (product w2) = S (S (List.length (product w))).
Proof.
  intros H1 H2.
  destruct (create_product_inv p1 w w1 s1 H1) as (_ & Hs1 & _ & _ & Hp1).
  destruct (create_product_inv p2 w1 w2 s2 H2) as (_ & Hs2 & Hfresh & _ & Hp2).
  set (o1 := ObjectId_of_N (oid_source w (oids w))) in *.
  set (o2 := ObjectId_of_N (oid_source w1 (oids w1))) in *.
  split.
  - intros Heq. rewrite Hp1, existsb_app in Hfresh.
    apply orb_false_iff in Hfresh. destruct Hfresh as [_ Hlast].
    cbn [existsb] in Hlast. rewrite orb_false_r in Hlast.
    assert (Ho : o1 = o2).
    { apply ObjectId_str_inj; try apply length_bytes_of_N.
      now rewrite <- Hs1, <- Hs2. }
    rewrite <- Ho, stored_document_id in Hlast. discriminate.
  - rewrite Hp2, Hp1, !length_app. cbn. lia.
Qed.

(** X6. A product that [get_product] returned before a successful
    [create_product] is returned unchanged after it. *)
Theorem create_keeps_products (p : ProductIn) (w w' : world) (s : string)
        (product_id : string) (found : ProductOut) :
  create_product p w = (Ok s, w') ->
  fst (get_product product_id w) = Ok found ->
  fst (get_product product_id w') = Ok found.
Proof.
  intros Hc Hg.
  destruct (create_product_inv p w w' s Hc) as (Hdb & _ & _ & Hdb' & Hp).
  rewrite get_product_available in Hg by exact Hdb.
  rewrite get_product_available by congruence.
  destruct (ObjectId_of_str product_id) as [oid|]; [|discriminate].
  destruct (List.find (matches [("_id", VOid oid)]) (product w))
    as [d|] eqn:Hfind; [|discriminate].
  now rewrite Hp, (find_app_some _ _ _ _ Hfind).
Qed.

(** ** Handlers that only read *)

(** X7. [get_product], [list_products] (also behind its parameter
    validation) and [list_categories] never change the collection, the
    clock readings or the identifiers drawn, whatever their arguments and
    whatever their outcome, and each makes one store call at most. *)
Theorem readers_do_not_write (w : world) :
  let unchanged (w' : world) :=
    product w' = product w /\ ticks w' = ticks w /\ oids w' = oids w
    /\ database w' = database w
    /\ (calls w' = calls w \/ exists c, calls w' = (calls w ++ [c])%list) in
  (forall product_id, unchanged (snd (get_product product_id w)))
  /\ (forall q category limit,
        unchanged (snd (list_products q category limit w)))
  /\ (forall q category raw,
        unchanged (snd (api_list_products q category raw w)))
  /\ unchanged (snd (list_categories w)).
Proof.
  intros unchanged.
  assert (Hsame : unchanged w) by (repeat split; auto).
  assert (Hcall : forall c, unchanged (record_call c w))
    by (intros c; repeat split; right; now exists c).
  assert (Hlist : forall q category limit,
             unchanged (snd (list_products q category limit w))).
  { intros q category limit. unfold list_products, bind, require_db.
    destruct (database w) as [|[[]|]]; cbn; auto. }
  split; [|split; [exact Hlist|split]].
  - intros product_id. unfold get_product, bind, require_db.
    destruct (database w) as [|[[]|]]; cbn; auto.
    destruct (ObjectId_of_str product_id) as [oid|]; cbn; auto.
    destruct (List.find _ (product w)) as [d|]; cbn; auto.
    destruct d; cbn; auto.
  - intros q category raw. unfold api_list_products, bind, lift.
    destruct (limit_query raw); cbn; auto.
  - unfold list_categories, bind, require_db.
    destruct (database w) as [|[[]|]]; cbn; auto.
Qed.

(** ** What [list_products] returns *)

Lemma In_firstn {A} (n : nat) (l : list A) (x : A) :
  In x (firstn n l) -> In x l.
Proof.
  revert l. induction n as [|n IH]; intros [|a l]; cbn; try contradiction.
  intros [->|H]; [now left|right; now apply IH].
Qed.

Lemma In_cursor_limit (n : Z) (l : list dict) (d : dict) :
  In d (cursor_limit n l) -> In d l.
Proof.
  unfold cursor_limit. destruct (n =? 0); [trivial|apply In_firstn].
Qed.

(** The comprehension succeeds exactly when every document converts, and
    then gives the products of the documents, one for one and in order. *)
Lemma docs_to_products_Forall2 (docs : list dict) (ps : list ProductOut) :
  docs_to_products docs = Ok ps
  <-> Forall2 (fun d p => _doc_to_product d = Ok p) docs ps.
Proof.
  revert ps. induction docs as [|d r IH]; intros ps; cbn.
  - split; [intros H; inversion H; constructor|intros H; now inversion H].
  - split.
    + destruct (_doc_to_product d) as [p|] eqn:Hd; [|discriminate]. cbn.
      destruct (docs_to_products r) as [ps'|]; [|discriminate]. cbn.
      intros H. inversion H; subst. constructor; [exact Hd|now apply IH].
    + intros H. inversion H as [|? p ? ps' Hd Hr]; subst.
      rewrite Hd. cbn. apply IH in Hr. rewrite Hr. reflexivity.
Qed.

Lemma matches_category (q : option string) (c : string) (d : dict) :
  c <> EmptyString ->
  matches (build_filters q (Some c)) d = true ->
  dict_get "category" d = Some (VStr c).
Proof.
  intros Hc. unfold matches, build_filters.
  destruct c as [|a c]; [now destruct Hc|].
  assert (Hfe : field_equals "category" (VStr (String a c)) d = true ->
                dict_get "category" d = Some (VStr (String a c))).
  { unfold field_equals. destruct (dict_get "category" d) as [v|];
      [|discriminate].
    destruct v; cbn; try discriminate.
    intros H. apply String.eqb_eq in H. now subst. }
  destruct q as [[|b q]|]; cbn; rewrite ?andb_true_r; intros H.
  - now apply Hfe.
  - apply andb_true_iff in H. now apply Hfe.
  - now apply Hfe.
Qed.

Lemma matches_text (t : string) (category : option string) (d : dict) :
  t <> EmptyString ->
  matches (build_filters (Some t) category) d = true ->
  field_regex t "i" "title" d || field_regex t "i" "description" d = true.
Proof.
  intros Ht. unfold matches, build_filters.
  destruct t as [|a t]; [now destruct Ht|].
  destruct category as [[|b c]|]; cbn;
    rewrite ?orb_false_r, ?andb_true_r; intros H; auto.
  apply andb_true_iff in H. now destruct H.
Qed.

(** The documents [list_products] converts, when the handle is there. *)
Lemma list_products_selected (q category : option string) (limit : Z)
      (w : world) (ps : list ProductOut) :
  fst (list_products q category limit w) = Ok ps ->
  Forall2 (fun d p => _doc_to_product d = Ok p)
          (cursor_limit limit
             (filter (matches (build_filters q category)) (product w)))
          ps.
Proof.
  unfold list_products, bind, require_db.
  destruct (database w) as [|[[]|]]; cbn; try discriminate.
  apply docs_to_products_Forall2.
Qed.

Lemma Forall2_In_r {A B} (R : A -> B -> Prop) (l : list A) (l' : list B)
      (b : B) :
  Forall2 R l l' -> In b l' -> exists a, In a l /\ R a b.
Proof.
  induction 1 as [|x y l l' Hxy _ IH]; cbn; [contradiction|].
  intros [->|Hin]; [exists x; auto|].
  destruct (IH Hin) as (a & Ha & HR). exists a; auto.
Qed.

(** X8. Filtering by a category that is not empty returns products of that
    category only. *)
Theorem list_category_sound (q : option string) (c : string) (limit : Z)
        (w : world) (ps : list ProductOut) :
  c <> EmptyString ->
  fst (list_products q (Some c) limit w) = Ok ps ->
  forall p, In p ps -> category p = c.
Proof.
  intros Hc H p Hin.
  destruct (Forall2_In_r _ _ _ _ (list_products_selected _ _ _ _ _ H) Hin)
    as (d & Hd & Hp).
  apply In_cursor_limit, filter_In in Hd. destruct Hd as [_ Hm].
  apply (matches_category q c d Hc) in Hm.
  destruct (doc_to_product_inv d p Hp)
    as (pr & ra & re & t & de & c' & i & _ & _ & _ & _ & _ & Hcat & _ & ->).
  unfold dict_get_none in Hcat.
  rewrite (dict_get_default_present _ _ _ _ Hm) in Hcat.
  cbn in *. congruence.
Qed.

(** X9. Searching for a text that is not empty returns only products in
    whose title or description the store's case-insensitive search finds
    the text. *)
Theorem list_text_sound (t : string) (category : option string) (limit : Z)
        (w : world) (ps : list ProductOut) :
  t <> EmptyString ->
  fst (list_products (Some t) category limit w) = Ok ps ->
  forall p, In p ps ->
    regex_search t "i" (title p) = true
    \/ exists d, description p = Some d /\ regex_search t "i" d = true.
Proof.
  intros Ht H p Hin.
  destruct (Forall2_In_r _ _ _ _ (list_products_selected _ _ _ _ _ H) Hin)
    as (d & Hd & Hp).
  apply In_cursor_limit, filter_In in Hd. destruct Hd as [_ Hm].
  apply (matches_text t category d Ht) in Hm.
  destruct (doc_to_product_inv d p Hp)
    as (pr & ra & re & t' & de & c' & i & _ & _ & _ & Htit & Hdes & _ & _
        & ->).
  cbn [fields title description].
  unfold field_regex, dict_get_none, dict_get_default in *.
  apply orb_true_iff in Hm. destruct Hm as [Hm|Hm].
  - left. destruct (dict_get "title" d) as [[]|]; try discriminate.
    cbn in Htit. congruence.
  - right. destruct (dict_get "description" d) as [[]|]; try discriminate.
    cbn in Hdes. inversion Hdes; subst. eauto.
Qed.

Lemma docs_to_products_firstn (k : nat) (docs : list dict)
      (ps : list ProductOut) :
  docs_to_products docs = Ok ps ->
  docs_to_products (firstn k docs) = Ok (firstn k ps).
Proof.
  rewrite !docs_to_products_Forall2. intros H. revert k.
  induction H as [|d p docs ps Hd _ IH]; intros [|k]; cbn; constructor; auto.
Qed.

Lemma docs_to_products_poisoned (docs : list dict) (d : dict) (e' : exn) :
  In d docs -> _doc_to_product d = Raise e' ->
  exists e, docs_to_products docs = Raise e /\ mapper_error e.
Proof.
  intros Hin Hd. induction docs as [|a r IH]; [contradiction|].
  cbn. destruct (_doc_to_product a) as [pa|ea] eqn:Ha.
  - destruct Hin as [->|Hin]; [congruence|].
    destruct (IH Hin) as (e & -> & He). exists e. cbn. auto.
  - exists ea. cbn. split; [reflexivity|].
    eapply doc_to_product_error; eauto.
Qed.

(** X10. A smaller limit gives a prefix: when the listing with limit [m]
    succeeds, the listing with a limit [n] from 1 to [m] succeeds too and
    returns the first [n] products of it. *)
Theorem list_limit_prefix (q category : option string) (n m : Z)
        (w : world) (ps : list ProductOut) :
  1 <= n <= m -> m <= 100 ->
  fst (api_list_products q category (Some m) w) = Ok ps ->
  fst (api_list_products q category (Some n) w)
  = Ok (firstn (Z.to_nat n) ps).
Proof.
  intros Hn Hm.
  unfold api_list_products, bind, lift.
  rewrite (limit_query_in_range n), (limit_query_in_range m) by lia.
  unfold list_products, bind, require_db.
  destruct (database w) as [|[[]|]]; cbn; try discriminate.
  rewrite !cursor_limit_positive by lia.
  intros H. apply (docs_to_products_firstn (Z.to_nat n)) in H.
  rewrite firstn_firstn in H.
  now rewrite Nat.min_l in H by lia.
Qed.

(** X11. A listing that succeeds returns the products of the records
    selected (the matching records up to the limit, in the store's order),
    one for one and in that order; and with the handle there, one selected
    record that cannot be converted makes the whole listing fail with a
    server error. *)
Theorem list_products_outcome (q category : option string) (limit : Z)
        (w : world) :
  database w = Imported (Some tt) ->
  let selected :=
    cursor_limit limit
      (filter (matches (build_filters q category)) (product w)) in
  (forall ps,
     fst (list_products q category limit w) = Ok ps ->
     Forall2 (fun d p => _doc_to_product d = Ok p) selected ps)
  /\ (forall d e',
        In d selected -> _doc_to_product d = Raise e' ->
        exists e, fst (list_products q category limit w) = Raise e
                  /\ http_status e = 500).
Proof.
  intros Hdb selected.
  rewrite (list_products_available _ _ _ _ Hdb). cbn [fst]. fold selected.
  split.
  - intros ps. apply docs_to_products_Forall2.
  - intros d e' Hin Hd.
    destruct (docs_to_products_poisoned selected d e' Hin Hd) as (e & He & Hk).
    exists e. split; [exact He|now apply mapper_error_status].
Qed.

(** ** More on the mapper *)

Lemma dict_get_set_other (k k' : string) (v : value) (d : dict) :
  k <> k' -> dict_get k (dict_set k' v d) = dict_get k d.
Proof.
  intros Hk. induction d as [|[k0 v0] r IH]; cbn.
  - destruct (String.eqb_spec k k'); [contradiction|reflexivity].
  - destruct (String.eqb_spec k' k0) as [->|Hne]; cbn.
    + destruct (String.eqb_spec k k0); [contradiction|reflexivity].
    + destruct (String.eqb_spec k k0); [reflexivity|exact IH].
Qed.

Lemma validate_str_ok (k : string) (doc : dict) (s : string) :
  validate_str (dict_get_none k doc) = Ok s ->
  dict_get k doc = Some (VStr s).
Proof.
  unfold dict_get_none, dict_get_default.
  destruct (dict_get k doc) as [[]|]; cbn; try discriminate.
  intros H. now inversion H.
Qed.

(** X12. A product comes out of a record only when ["title"] and
    ["category"] are stored as strings, which are then the product's, and
    the product always carries a rating and a review count.  A record in
    which the title or the category is missing or is not a string is never
    converted: the call ends with a server error. *)
Theorem doc_to_product_needs_strings (doc : dict) :
  (forall p, _doc_to_product doc = Ok p ->
     dict_get "title" doc = Some (VStr (title p))
     /\ dict_get "category" doc = Some (VStr (category p))
     /\ rating p <> None /\ reviews p <> None)
  /\ ((forall t, dict_get "title" doc <> Some (VStr t))
      \/ (forall c, dict_get "category" doc <> Some (VStr c)) ->
      exists e, _doc_to_product doc = Raise e /\ http_status e = 500).
Proof.
  assert (Hok : forall p, _doc_to_product doc = Ok p ->
     dict_get "title" doc = Some (VStr (title p))
     /\ dict_get "category" doc = Some (VStr (category p))
     /\ rating p <> None /\ reviews p <> None).
  { intros p H.
    destruct (doc_to_product_inv doc p H)
      as (pr & ra & re & t & d & c & i & _ & _ & _ & Ht & _ & Hc & _ & ->).
    cbn. repeat split; try discriminate; now apply validate_str_ok. }
  split; [exact Hok|].
  intros Hbad. destruct (_doc_to_product doc) as [p|e] eqn:H.
  - destruct (Hok p eq_refl) as (Ht & Hc & _).
    destruct Hbad as [Hbad|Hbad]; [now destruct (Hbad _ Ht)|
                                   now destruct (Hbad _ Hc)].
  - exists e. split; [reflexivity|].
    apply mapper_error_status. eapply doc_to_product_error; eauto.
Qed.

(** X13. The mapper reads nine keys and nothing else: two records that
    agree on them are converted alike, so that a key outside them, such as
    the timestamps [create_product] stores, never shows in a product. *)
Theorem doc_to_product_reads_nine_keys (doc : dict) :
  (forall doc',
     (forall k, In k product_keys -> dict_get k doc' = dict_get k doc) ->
     _doc_to_product doc' = _doc_to_product doc)
  /\ (forall k v, ~ In k product_keys ->
        _doc_to_product (dict_set k v doc) = _doc_to_product doc).
Proof.
  assert (Hagree : forall doc',
     (forall k, In k product_keys -> dict_get k doc' = dict_get k doc) ->
     _doc_to_product doc' = _doc_to_product doc).
  { intros doc' H. unfold _doc_to_product, dict_get_none, dict_get_default.
    rewrite !H by (cbn; auto 12). reflexivity. }
  split; [exact Hagree|].
  intros k v Hk. apply Hagree. intros k' Hk'.
  apply dict_get_set_other. intros ->. contradiction.
Qed.

(** ** More on [get_product] *)

(** X14. A product returned by [get_product] carries the identifier that
    was asked for, in its canonical text (lower-case hexadecimal). *)
Theorem get_product_returns_requested (product_id : string) (w : world)
        (p : ProductOut) :
  fst (get_product product_id w) = Ok p ->
  exists oid,
    ObjectId_of_str product_id = Some oid /\ id p = ObjectId_str oid.
Proof.
  intros H.
  assert (Hdb : database w = Imported (Some tt)).
  { destruct (database w) as [|[[]|]] eqn:Hdb; [|reflexivity|];
      rewrite get_product_unavailable in H by congruence; discriminate. }
  rewrite (get_product_available _ _ Hdb) in H.
  destruct (ObjectId_of_str product_id) as [oid|]; [|discriminate].
  exists oid. split; [reflexivity|].
  destruct (List.find (matches [("_id", VOid oid)]) (product w))
    as [d|] eqn:Hfind; [|discriminate].
  apply find_some in Hfind. destruct Hfind as [_ Hm].
  rewrite matches_oid in Hm. apply field_equals_oid in Hm.
  destruct (doc_to_product_inv d p H)
    as (pr & ra & re & t & de & c & i & _ & _ & _ & _ & _ & _ & _ & ->).
  cbn. unfold dict_get_none.
  now rewrite (dict_get_default_present _ _ _ _ Hm).
Qed.




(** ** More on [list_categories] *)

Lemma value_eqb_str (c : string) (v : value) :
  value_eqb (VStr c) v = true -> v = VStr c.
Proof.
  destruct v; cbn; try discriminate.
  intros H. apply String.eqb_eq in H. now subst.
Qed.

Lemma In_add_distinct (acc : list value) (v x : value) :
  In x (add_distinct acc v) -> In x acc \/ x = v.
Proof.
  unfold add_distinct. destruct (existsb (value_eqb v) acc); [auto|].
  intros H. apply in_app_or in H. destruct H as [H|[H|[]]]; auto.
Qed.

Lemma In_distinct_sound (l acc : list value) (x : value) :
  In x (fold_left add_distinct l acc) -> In x acc \/ In x l.
Proof.
  revert acc. induction l as [|a l IH]; intros acc; cbn; [auto|].
  intros H. apply IH in H. destruct H as [H|H]; [|auto].
  apply In_add_distinct in H. destruct H as [H| ->]; auto.
Qed.

Lemma In_distinct_complete (l acc : list value) (c : string) :
  In (VStr c) acc \/ In (VStr c) l ->
  In (VStr c) (fold_left add_distinct l acc).
Proof.
  revert acc. induction l as [|a l IH]; intros acc; cbn.
  - intros [H|[]]. exact H.
  - intros H. apply IH. unfold add_distinct.
    destruct H as [H|[->|H]]; [| |auto].
    + left. destruct (existsb (value_eqb a) acc); [exact H|].
      apply in_or_app. auto.
    + left. destruct (existsb (value_eqb (VStr c)) acc) eqn:Hex.
      * apply existsb_exists in Hex. destruct Hex as (y & Hy & Heq).
        apply value_eqb_str in Heq. now subst.
      * apply in_or_app. right. now left.
Qed.

(** The strings among the distinct values of a key are the strings the
    documents carry under it, alone or in an array. *)
Lemma In_distinct_values_str (key c : string) (docs : list dict) :
  In (VStr c) (distinct_values key docs)
  <-> exists doc, In doc docs /\ In (VStr c) (distinct_candidates key doc).
Proof.
  unfold distinct_values. rewrite <- in_flat_map. split.
  - intros H. apply In_distinct_sound in H. destruct H as [[]|H]. exact H.
  - intros H. apply In_distinct_complete. auto.
Qed.

Lemma list_categories_available (w : world) :
  database w = Imported (Some tt) ->
  fst (list_categories w)
  = Ok (filter truthy (distinct_values "category" (product w))).
Proof.
  intros Hdb. unfold list_categories, bind, require_db. now rewrite Hdb.
Qed.

Lemma truthy_str (c : string) :
  truthy (VStr c) = true <-> c <> EmptyString.
Proof.
  cbn. destruct (String.eqb_spec c EmptyString); cbn; split; congruence.
Qed.

(** X16. With the handle there, a string is among the categories listed
    exactly when it is not empty and some stored product carries it as its
    category (or in an array of categories). *)
Theorem list_categories_strings (w : world) :
  database w = Imported (Some tt) ->
  exists cats,
    fst (list_categories w) = Ok cats
    /\ forall c,
         In (VStr c) cats
         <-> c <> EmptyString
             /\ exists doc, In doc (product w)
                            /\ In (VStr c) (distinct_candidates "category" doc).
Proof.
  intros Hdb. eexists. split; [now apply list_categories_available|].
  intros c. rewrite filter_In, In_distinct_values_str, truthy_str.
  split; intros [H1 H2]; auto.
Qed.

(** X17. After a successful [create_product] of a product whose category is
    not empty, that category is among the categories listed, and so is
    every string that was listed before. *)
Theorem create_then_list_categories (p : ProductIn) (w w' : world)
        (s : string) :
  create_product p w = (Ok s, w') ->
  category p <> EmptyString ->
  exists before after,
    fst (list_categories w) = Ok before
    /\ fst (list_categories w') = Ok after
    /\ In (VStr (category p)) after
    /\ forall c, In (VStr c) before -> In (VStr c) after.
Proof.
  intros H Hc.
  destruct (create_product_inv p w w' s H) as (Hdb & _ & _ & Hdb' & Hp).
  do 2 eexists.
  split; [now apply list_categories_available|].
  split; [apply list_categories_available; congruence|].
  rewrite Hp. split.
  - rewrite filter_In, In_distinct_values_str, truthy_str. split; [|exact Hc].
    eexists. split; [apply in_or_app; right; now left|].
    destruct p; cbn. now left.
  - intros c. rewrite !filter_In, !In_distinct_values_str.
    intros [(doc & Hin & Hcand) Ht]. split; [|exact Ht].
    exists doc. split; [apply in_or_app; now left|exact Hcand].
Qed.

(** ** The diagnostic endpoint *)




Local Ltac probe_cases env :=
  destruct env as [ge [|m|[[nm [cols|m]]|]]]; cbn.

(** X18. The answer of [test_database] always has the same six keys in the
    same order and reports the backend as running; its [database_url] and
    [database_name] say only whether the environment variable of that name
    is set to a non-empty value, whatever the state of the database: the
    name of the database object never shows. *)
Theorem probe_environment_fields (env : environment) :
  map fst (test_database env)
  = ["backend"; "database"; "database_url"; "database_name";
     "connection_status"; "collections"]
  /\ dict_get "backend" (test_database env) = Some (VStr "✅ Running")
  /\ dict_get "database_url" (test_database env)
     = Some (set_mark env "DATABASE_URL")
  /\ dict_get "database_name" (test_database env)
     = Some (set_mark env "DATABASE_NAME")
  /\ forall name,
       (set_mark env name = VStr "✅ Set"
        \/ set_mark env name = VStr "❌ Not Set")
       /\ (set_mark env name = VStr "✅ Set"
           <-> exists s, getenv env name = Some s /\ s <> EmptyString).
Proof.
  repeat split.
  - probe_cases env; reflexivity.
  - probe_cases env; reflexivity.
  - probe_cases env; reflexivity.
  - probe_cases env; reflexivity.
  - unfold set_mark. destruct (truthy _); auto.
  - unfold set_mark. destruct (getenv env name) as [s|]; cbn;
      [|discriminate].
    destruct (String.eqb_spec s EmptyString); cbn; [discriminate|].
    intros _. now exists s.
  - intros (s & Hs & Hne). unfold set_mark. rewrite Hs. cbn.
    destruct (String.eqb_spec s EmptyString); [contradiction|reflexivity].
Qed.

(** X19. The [collections] of the answer are collection names, ten at
    most: the first ten names the database lists when it is there and the
    listing goes through, and none otherwise. *)
Theorem probe_collections (env : environment) :
  exists names,
    dict_get "collections" (test_database env) = Some (VList (map VStr names))
    /\ (List.length names <= 10)%nat
    /\ (forall db all,
          database_module env = ImportedDb (Some db) ->
          list_collection_names db = Returns all ->
          names = firstn 10 all)
    /\ ((forall db all,
           database_module env = ImportedDb (Some db) ->
           list_collection_names db <> Returns all) ->
        names = []).
Proof.
  probe_cases env.
  - exists []. repeat split; auto; try discriminate. cbn; lia.
  - exists []. repeat split; auto; try discriminate. cbn; lia.
  - exists (firstn 10 cols). split; [reflexivity|]. split.
    + apply firstn_le_length.
    + split.
      * intros db all Hdb Hl. inversion Hdb; subst. cbn in Hl.
        now inversion Hl.
      * intros H. now destruct (H (mkDatabase nm (Returns cols)) cols).
  - exists []. repeat split; auto; try (cbn; lia).
    intros db all Hdb Hl. inversion Hdb; subst. discriminate.
  - exists []. repeat split; auto; try discriminate. cbn; lia.
Qed.

(** X20. The answer says ["Connected"] exactly when [db] was imported and
    is not [None], also when listing the collections then fails; and its
    [database] field says connected and working exactly when, moreover,
    the listing went through. *)
Theorem probe_status (env : environment) :
  (dict_get "connection_status" (test_database env) = Some (VStr "Connected")
   <-> exists db, database_module env = ImportedDb (Some db))
  /\ (dict_get "connection_status" (test_database env)
      = Some (VStr "Connected")
      \/ dict_get "connection_status" (test_database env)
         = Some (VStr "Not Connected"))
  /\ (dict_get "database" (test_database env)
      = Some (VStr "✅ Connected & Working")
      <-> exists db all,
            database_module env = ImportedDb (Some db)
            /\ list_collection_names db = Returns all).
Proof.
  split; [|split].
  - probe_cases env;
      (split;
       [intros H; first [discriminate H|eexists; reflexivity]
       |intros (db & H); first [discriminate H|reflexivity]]).
  - probe_cases env; auto.
  - probe_cases env;
      (split;
       [intros H;
        first [discriminate H|do 2 eexists; split; reflexivity]
       |intros (db & all & H & H');
        first [discriminate H|reflexivity
              |inversion H; subst; discriminate H']]).
Qed.


(** ** Strings the identifier constructor accepts *)

Lemma hex_value_bound (c : ascii) (h : N) :
  hex_value c = Some h -> (h < 16)%N /\ is_space c = false.
Proof.
  unfold hex_value, is_space.
  generalize (N_of_ascii c). intros n.
  assert (Hsp : (48 <= n)%N ->
                ((n =? 32) || ((9 <=? n) && (n <=? 13)))%N = false).
  { intros Hn. apply orb_false_iff. split; [apply N.eqb_neq; lia|].
    apply andb_false_iff. right. apply N.leb_gt. lia. }
  destruct ((48 <=? n) && (n <=? 57))%N eqn:E1.
  - apply andb_true_iff in E1. rewrite !N.leb_le in E1.
    intros Hv. inversion Hv; subst. split; [lia|apply Hsp; lia].
  - destruct ((97 <=? n) && (n <=? 102))%N eqn:E2.
    + apply andb_true_iff in E2. rewrite !N.leb_le in E2.
      intros Hv. inversion Hv; subst. split; [lia|apply Hsp; lia].
    + destruct ((65 <=? n) && (n <=? 70))%N eqn:E3; [|discriminate].
      apply andb_true_iff in E3. rewrite !N.leb_le in E3.
      intros Hv. inversion Hv; subst. split; [lia|apply Hsp; lia].
Qed.

Lemma byte_of_digits_some (hi lo : N) :
  (hi < 16)%N -> (lo < 16)%N -> exists b, byte_of_digits hi lo = Some b.
Proof.
  intros Hhi Hlo. unfold byte_of_digits.
  destruct (Byte.of_N (16 * hi + lo)) as [b|] eqn:Hb; [now exists b|].
  apply Byte.of_N_None_iff in Hb. lia.
Qed.

Lemma fromhex_all_hex (n : nat) :
  forall s, String.length s = (2 * n)%nat ->
            (forall c, In c (chars s) -> hex_value c <> None) ->
            exists l, fromhex s = Some l /\ List.length l = n.
Proof.
  induction n as [|n IH]; intros s Hlen Hall.
  - destruct s; [|discriminate]. now exists [].
  - destruct s as [|a [|b r]]; try (cbn in Hlen; lia).
    cbn [String.length] in Hlen.
    destruct (hex_value a) as [hi|] eqn:Ha;
      [|now destruct (Hall a (or_introl eq_refl))].
    destruct (hex_value b) as [lo|] eqn:Hb;
      [|now destruct (Hall b (or_intror (or_introl eq_refl)))].
    destruct (hex_value_bound a hi Ha) as [Hhi Hsp].
    destruct (hex_value_bound b lo Hb) as [Hlo _].
    destruct (byte_of_digits_some hi lo Hhi Hlo) as [x Hx].
    destruct (IH r) as (l & Hl & Hn); [lia| |].
    { intros c Hc. apply Hall. cbn. auto. }
    exists (x :: l). cbn [fromhex]. rewrite Hsp, Ha, Hb, Hx, Hl.
    split; [reflexivity|cbn; now rewrite Hn].
Qed.

(** X22. Every string of 24 hexadecimal digits, in either case, is an
    identifier: the constructor accepts it and gives twelve bytes, and
    [get_product] never answers 400 to it. *)
Theorem hex_strings_are_identifiers (s : string) :
  String.length s = 24%nat ->
  (forall c, In c (chars s) -> hex_value c <> None) ->
  (exists oid, ObjectId_of_str s = Some oid
               /\ List.length (binary oid) = 12%nat)
  /\ (forall w e, fst (get_product s w) = Raise e -> http_status e <> 400).
Proof.
  intros Hlen Hall.
  destruct (fromhex_all_hex 12 s Hlen Hall) as (l & Hl & Hn).
  assert (Hoid : ObjectId_of_str s = Some (mkObjectId l)).
  { unfold ObjectId_of_str. now rewrite Hlen, Hl. }
  split; [exists (mkObjectId l); auto|].
  intros w e. unfold get_product, bind, require_db.
  destruct (database w) as [|[[]|]]; cbn;
    try (intros H; inversion H; cbn; discriminate).
  rewrite Hoid.
  unfold find_one. cbn.
  destruct (List.find _ (product w)) as [d|]; cbn;
    [|intros H; inversion H; cbn; discriminate].
  destruct d as [|kv d]; cbn; [intros H; inversion H; cbn; discriminate|].
  intros H. apply doc_to_product_error, mapper_error_status in H.
  rewrite H. discriminate.
Qed.

(** ** Listings that are complete *)

Lemma Forall2_In_l {A B} (R : A -> B -> Prop) (l : list A) (l' : list B)
      (a : A) :
  Forall2 R l l' -> In a l -> exists b, In b l' /\ R a b.
Proof.
  induction 1 as [|x y l l' Hxy _ IH]; cbn; [contradiction|].
  intros [->|Hin]; [exists y; auto|].
  destruct (IH Hin) as (b & Hb & HR). exists b; auto.
Qed.

Lemma cursor_limit_all (n : Z) (l : list dict) :
  1 <= n -> Z.of_nat (List.length l) <= n -> cursor_limit n l = l.
Proof.
  intros Hn Hl. rewrite cursor_limit_positive by exact Hn.
  apply firstn_all2. lia.
Qed.

(** X23. When no more records match than the limit allows, a listing that
    succeeds is complete: it returns one product for each matching record,
    and for every stored record that matches the filter its product is in
    the result. *)
Theorem list_complete_within_limit (q category : option string) (limit : Z)
        (w : world) (ps : list ProductOut) :
  1 <= limit ->
  Z.of_nat (List.length
              (filter (matches (build_filters q category)) (product w)))
  <= limit ->
  fst (list_products q category limit w) = Ok ps ->
  List.length ps
  = List.length (filter (matches (build_filters q category)) (product w))
  /\ forall d, In d (product w) ->
               matches (build_filters q category) d = true ->
               exists p, In p ps /\ _doc_to_product d = Ok p.
Proof.
  intros Hn Hl H. apply list_products_selected in H.
  rewrite (cursor_limit_all _ _ Hn Hl) in H. split.
  - symmetry. eapply Forall2_length. exact H.
  - intros d Hd Hm. apply (Forall2_In_l _ _ _ d H).
    apply filter_In. auto.
Qed.

(** The document stored for an input with a rating and a review count
    converts to the input under the identifier's text. *)
Lemma stored_document_maps (p : ProductIn) (t1 t2 : Z) (o : ObjectId)
      (r : float) (n : Z) :
  rating p = Some r -> reviews p = Some n ->
  _doc_to_product (stored_document p t1 t2 o)
  = Ok (mkProductOut (ObjectId_str o) p).
Proof.
  intros Hr Hn. destruct p as [t d pr c st i ra re]. cbn in Hr, Hn.
  subst ra re. unfold _doc_to_product, stored_document, stored_record. cbn.
  destruct d, i, st; reflexivity.
Qed.

Lemma stored_document_category (p : ProductIn) (t1 t2 : Z) (o : ObjectId) :
  matches (build_filters None (Some (category p)))
          (stored_document p t1 t2 o) = true.
Proof.
  destruct p as [t d pr c st i ra re]. cbn [category].
  unfold matches, build_filters.
  destruct c as [|a c]; [reflexivity|].
  cbn. unfold field_equals. cbn.
  rewrite Ascii.eqb_refl, String.eqb_refl. reflexivity.
Qed.

(** X24. A product created with a rating and a review count is found by
    listing its category: after a successful [create_product], a listing
    for the product's category that succeeds, with a limit of at least the
    number of matching records, contains the input under the identifier
    returned. *)
Theorem create_then_list_category (p : ProductIn) (w w' : world) (s : string)
        (r : float) (n : Z) (limit : Z) (ps : list ProductOut) :
  rating p = Some r -> reviews p = Some n ->
  create_product p w = (Ok s, w') ->
  1 <= limit ->
  Z.of_nat (List.length
              (filter (matches (build_filters None (Some (category p))))
                      (product w')))
  <= limit ->
  fst (list_products None (Some (category p)) limit w') = Ok ps ->
  In (mkProductOut s p) ps.
Proof.
  intros Hr Hn Hc Hl Hlen H.
  destruct (create_product_inv p w w' s Hc) as (_ & -> & _ & _ & Hp).
  apply list_products_selected in H.
  rewrite (cursor_limit_all _ _ Hl Hlen) in H.
  set (d := stored_document p (clock w (ticks w)) (clock w (S (ticks w)))
              (ObjectId_of_N (oid_source w (oids w)))) in *.
  assert (Hin : In d (filter (matches (build_filters None
                                         (Some (category p))))
                             (product w'))).
  { apply filter_In. split.
    - rewrite Hp. apply in_or_app. right. now left.
    - apply stored_document_category. }
  destruct (Forall2_In_l _ _ _ d H Hin) as (x & Hx & Hmap).
  unfold d in Hmap.
  rewrite (stored_document_maps p _ _ _ r n Hr Hn) in Hmap.
  inversion Hmap; subst. exact Hx.
Qed.

End Catalogue.

(** ** Worked examples on the reference runtime *)

Abbreviation run_list := (api_list_products dec_float_of_str dec_int_of_str
                                        plain_str literal_search).
Abbreviation run_get := (get_product dec_float_of_str dec_int_of_str
                                 plain_str literal_search).
Abbreviation run_map := (_doc_to_product dec_float_of_str dec_int_of_str
                                     plain_str).

(** The filter as the specification words it fails for an empty category:
    it asks for the stored category to be the empty string, where the
    handler builds the filter that matches every document. *)
Lemma list_filter_empty_category :
  matches literal_search (build_filters None (Some EmptyString)) blue_mug
  = true
  /\ spec_filter literal_search None (Some EmptyString) blue_mug = false.
Proof. split; reflexivity. Qed.

(** A limit of 5 is passed on as it is. *)
Lemma limit_contract_witness :
  1 <= 5 <= 100
  /\ run_list None None (Some 5) shop
     = list_products dec_float_of_str dec_int_of_str plain_str literal_search
                     None None 5 shop.
Proof.
  assert (H : 1 <= 5 <= 100) by lia.
  split; [exact H|].
  exact (proj1 (proj1 (proj2 (limit_contract dec_float_of_str dec_int_of_str
                                plain_str literal_search None None shop))
                      5 H)).
Defined.

(** A record with a stored price and no other optional key: the price is
    coerced, every other field gets its default. *)
Lemma doc_to_product_defaults_witness :
  run_map blue_mug
  = Ok (mkProductOut "000000000000000000000001"
          (mkProductIn "Blue Mug" None (float_of_Z 12) "kitchen" true None
                       (Some float_4_5) (Some 0))).
Proof.
  apply (proj2 (proj2 (proj2 (doc_to_product_defaults dec_float_of_str
                                dec_int_of_str plain_str blue_mug)) _)).
  exists "Blue Mug", "kitchen", (float_of_Z 12), float_4_5, 0, None, None.
  exact (conj eq_refl (conj eq_refl (conj eq_refl (conj eq_refl
          (conj eq_refl (conj eq_refl (conj eq_refl eq_refl))))))).
Defined.

(** A stored [None] rating is not replaced by 4.5. *)
Lemma null_numeric_field_raises_witness :
  exists e,
    run_map [("_id", VOid oid_1); ("title", VStr "Blue Mug");
             ("category", VStr "kitchen"); ("rating", VNone)] = Raise e
    /\ (e = TypeError \/ e = ValueError \/ e = OverflowError)
    /\ http_status e = 500.
Proof.
  exact (proj1 (null_numeric_field_raises dec_float_of_str dec_int_of_str
                  plain_str
                  [("_id", VOid oid_1); ("title", VStr "Blue Mug");
                   ("category", VStr "kitchen"); ("rating", VNone)]
                  (or_intror (or_introl eq_refl)))).
Defined.

(** A stored count of -3 comes out as -3. *)
Lemma reviews_negative :
  exists p, run_map refunded = Ok p /\ reviews p = Some (-3) /\ -3 < 0.
Proof. eexists. split; [reflexivity|]. split; [reflexivity|lia]. Qed.

Lemma reviews_is_int_coercion_witness :
  exists n,
    reviews (mkProductOut "000000000000000000000001"
               (mkProductIn "Blue Mug" None float_zero "kitchen" true None
                            (Some float_4_5) (Some (-3)))) = Some n
    /\ py_int dec_int_of_str (dict_get_default "reviews" (VInt 0) refunded)
       = Ok n
    /\ (forall z, dict_get "reviews" refunded = Some (VInt z) -> n = z)
    /\ (dict_get "reviews" refunded = None -> n = 0).
Proof.
  exact (reviews_is_int_coercion dec_float_of_str dec_int_of_str plain_str
           refunded _ eq_refl).
Defined.

(** With [db] being [None], a malformed identifier is answered 503, not
    400. *)
Lemma get_malformed_unavailable :
  ObjectId_of_str "xyz" = None
  /\ database closed_shop = Imported None
  /\ run_get "xyz" closed_shop = (Raise not_configured, closed_shop)
  /\ http_status not_configured <> 400.
Proof. repeat split; try reflexivity. discriminate. Qed.

Lemma get_product_order_witness :
  run_get "xyz" shop = (Raise (HTTPException 400 "Invalid product id"), shop).
Proof.
  exact (proj1 (get_product_order dec_float_of_str dec_int_of_str plain_str
                  literal_search "xyz" shop eq_refl) eq_refl).
Defined.

(** With [db] being [None], a limit of 0 is answered 422, not 503. *)
Lemma list_unavailable_bad_limit :
  database closed_shop = Imported None
  /\ run_list None None (Some 0) closed_shop
     = (Raise RequestValidationError, closed_shop)
  /\ http_status RequestValidationError = 422
  /\ http_status RequestValidationError <> 503.
Proof. repeat split; try reflexivity. discriminate. Qed.

Lemma unavailable_is_503_witness :
  run_get "000000000000000000000001" closed_shop
  = (Raise not_configured, closed_shop).
Proof.
  exact (proj1 (proj2 (proj2 (proj2
           (unavailable_is_503 dec_float_of_str dec_int_of_str plain_str
              literal_search closed_shop (or_intror eq_refl)))))
           "000000000000000000000001").
Defined.

Lemma list_categories_truthy_witness :
  list_categories shop
  = (Ok [VStr "kitchen"], record_call (CDistinct "category") shop).
Proof.
  exact (proj1 (list_categories_truthy shop eq_refl)).
Defined.

(** The product without a rating is created and cannot be read back. *)
Lemma create_get_null_field_witness :
  fst (create_product plain_str no_rating shop)
  = Ok "000000000000000000000002"
  /\ fst (run_get "000000000000000000000002"
                  (snd (create_product plain_str no_rating shop)))
     = Raise TypeError.
Proof.
  split; [reflexivity|].
  exact (create_get_null_field dec_float_of_str dec_int_of_str plain_str
           literal_search no_rating shop _ _ (or_introl eq_refl) eq_refl).
Defined.

(** The mug is found by its title in either case, under its category, and
    not by a word it does not carry. *)
Example list_blue_mug :
  fst (run_list (Some "blue") None None shop)
  = Ok [mkProductOut "000000000000000000000001"
          (mkProductIn "Blue Mug" None (float_of_Z 12) "kitchen" true None
                       (Some float_4_5) (Some 0))]
  /\ fst (run_list (Some "MUG") (Some "kitchen") None shop)
     = fst (run_list (Some "blue") None None shop)
  /\ fst (run_list (Some "MUG") (Some "toys") None shop) = Ok []
  /\ fst (run_list (Some "red") None None shop) = Ok [].
Proof. repeat split; reflexivity. Qed.

(** ** Further worked examples *)

Abbreviation run_create := (create_product plain_str).
Abbreviation run_handler := (list_products dec_float_of_str dec_int_of_str
                                           plain_str literal_search).
Abbreviation id_2 := "000000000000000000000002".
Abbreviation mug_out :=
  (mkProductOut "000000000000000000000001"
     (mkProductIn "Blue Mug" None (float_of_Z 12) "kitchen" true None
                  (Some float_4_5) (Some 0))).

Lemma create_get_roundtrip_witness :
  fst (run_get id_2 (snd (run_create mug_in shop)))
  = Ok (mkProductOut id_2 mug_in).
Proof.
  exact (create_get_roundtrip dec_float_of_str dec_int_of_str plain_str
           literal_search mug_in shop _ _ float_4_5 3
           eq_refl eq_refl eq_refl).
Defined.

Lemma create_product_effect_witness :
  exists w', run_create mug_in shop = (Ok id_2, w') /\ ticks w' = 2%nat.
Proof.
  destruct (create_product_effect plain_str mug_in shop eq_refl eq_refl)
    as (w' & H & _ & _ & Ht & _).
  exists w'. split; [exact H|exact Ht].
Defined.

Lemma created_id_well_formed_witness : String.length id_2 = 24%nat.
Proof.
  exact (proj1 (created_id_well_formed dec_float_of_str dec_int_of_str
                  plain_str literal_search mug_in shop _ id_2 eq_refl)).
Defined.

Lemma create_twice_distinct_witness :
  id_2 <> "000000000000000000000003".
Proof.
  exact (proj1 (create_twice_distinct plain_str mug_in mug_in shop _ _
                  id_2 "000000000000000000000003" eq_refl eq_refl)).
Defined.

Lemma create_keeps_products_witness :
  fst (run_get "000000000000000000000001" (snd (run_create mug_in shop)))
  = Ok mug_out.
Proof.
  exact (create_keeps_products dec_float_of_str dec_int_of_str plain_str
           literal_search mug_in shop _ id_2 "000000000000000000000001"
           mug_out eq_refl eq_refl).
Defined.

Lemma list_category_sound_witness : category mug_out = "kitchen".
Proof.
  assert (Hne : "kitchen" <> EmptyString) by discriminate.
  exact (list_category_sound dec_float_of_str dec_int_of_str plain_str
           literal_search None "kitchen" 24 shop [mug_out] Hne eq_refl
           mug_out (or_introl eq_refl)).
Defined.

Lemma list_text_sound_witness :
  literal_search "mug" "i" (title mug_out) = true
  \/ exists d, description mug_out = Some d
               /\ literal_search "mug" "i" d = true.
Proof.
  assert (Hne : "mug" <> EmptyString) by discriminate.
  exact (list_text_sound dec_float_of_str dec_int_of_str plain_str
           literal_search "mug" None 24 shop [mug_out] Hne eq_refl
           mug_out (or_introl eq_refl)).
Defined.

Lemma list_limit_prefix_witness :
  fst (run_list None None (Some 1) shop) = Ok (firstn 1 [mug_out]).
Proof.
  assert (H1 : 1 <= 1 <= 5) by lia.
  assert (H2 : 5 <= 100) by lia.
  exact (list_limit_prefix dec_float_of_str dec_int_of_str plain_str
           literal_search None None 1 5 shop [mug_out] H1 H2 eq_refl).
Defined.

Lemma list_products_outcome_witness :
  Forall2 (fun d p => run_map d = Ok p) [blue_mug] [mug_out].
Proof.
  exact (proj1 (list_products_outcome dec_float_of_str dec_int_of_str
                  plain_str literal_search None None 24 shop eq_refl)
               [mug_out] eq_refl).
Defined.

Lemma doc_to_product_needs_strings_witness :
  exists e,
    run_map [("_id", VOid oid_1); ("category", VStr "kitchen")] = Raise e
    /\ http_status e = 500.
Proof.
  apply (proj2 (doc_to_product_needs_strings dec_float_of_str
                  dec_int_of_str plain_str
                  [("_id", VOid oid_1); ("category", VStr "kitchen")])).
  left. intros t. discriminate.
Defined.

Lemma doc_to_product_reads_nine_keys_witness :
  run_map (dict_set "created_at" (VDatetime 5) blue_mug) = run_map blue_mug.
Proof.
  apply (proj2 (doc_to_product_reads_nine_keys dec_float_of_str
                  dec_int_of_str plain_str blue_mug)).
  cbn. intros H.
  repeat (destruct H as [H|H]; [discriminate H|]). exact H.
Defined.

Lemma get_product_returns_requested_witness :
  exists oid,
    ObjectId_of_str "000000000000000000000001" = Some oid
    /\ id mug_out = ObjectId_str oid.
Proof.
  exact (get_product_returns_requested dec_float_of_str dec_int_of_str
           plain_str literal_search "000000000000000000000001" shop mug_out
           eq_refl).
Defined.


Lemma list_categories_strings_witness :
  exists cats,
    fst (list_categories shop) = Ok cats
    /\ forall c,
         In (VStr c) cats
         <-> c <> EmptyString
             /\ exists doc, In doc (product shop)
                            /\ In (VStr c)
                                  (distinct_candidates "category" doc).
Proof.
  exact (list_categories_strings shop eq_refl).
Defined.

Lemma create_then_list_categories_witness :
  exists before after,
    fst (list_categories shop) = Ok before
    /\ fst (list_categories (snd (run_create mug_in shop))) = Ok after
    /\ In (VStr "kitchen") after
    /\ forall c, In (VStr c) before -> In (VStr c) after.
Proof.
  assert (Hne : category mug_in <> EmptyString) by discriminate.
  exact (create_then_list_categories plain_str mug_in shop _ id_2
           eq_refl Hne).
Defined.

Lemma probe_collections_witness :
  exists names,
    dict_get "collections" (test_database probe_ok)
    = Some (VList (map VStr names))
    /\ (List.length names <= 10)%nat
    /\ (forall db all,
          database_module probe_ok = ImportedDb (Some db) ->
          list_collection_names db = Returns all ->
          names = firstn 10 all)
    /\ ((forall db all,
           database_module probe_ok = ImportedDb (Some db) ->
           list_collection_names db <> Returns all) ->
        names = []).
Proof.
  exact (probe_collections probe_ok).
Defined.


Lemma hex_strings_are_identifiers_witness :
  exists oid,
    ObjectId_of_str "00000000000000000000000A" = Some oid
    /\ List.length (binary oid) = 12%nat.
Proof.
  apply (proj1 (hex_strings_are_identifiers dec_float_of_str dec_int_of_str
                  plain_str literal_search "00000000000000000000000A"
                  eq_refl
                  ltac:(cbn; intros c H;
                        repeat (destruct H as [<-|H]; [discriminate|]);
                        contradiction))).
Defined.

Lemma list_complete_within_limit_witness :
  List.length [mug_out]
  = List.length (filter (matches literal_search (build_filters None None))
                        (product shop))
  /\ forall d, In d (product shop) ->
               matches literal_search (build_filters None None) d = true ->
               exists p, In p [mug_out] /\ run_map d = Ok p.
Proof.
  assert (H1 : 1 <= 24) by lia.
  assert (H2 : Z.of_nat
                 (List.length
                    (filter (matches literal_search
                                     (build_filters None None))
                            (product shop))) <= 24)
    by (vm_compute; discriminate).
  exact (list_complete_within_limit dec_float_of_str dec_int_of_str
           plain_str literal_search None None 24 shop [mug_out] H1 H2
           eq_refl).
Defined.

Lemma create_then_list_category_witness :
  In (mkProductOut id_2 mug_in) [mug_out; mkProductOut id_2 mug_in].
Proof.
  assert (H1 : 1 <= 24) by lia.
  assert (H2 : Z.of_nat
                 (List.length
                    (filter (matches literal_search
                               (build_filters None
                                  (Some (category mug_in))))
                            (product (snd (run_create mug_in shop)))))
               <= 24)
    by (vm_compute; discriminate).
  exact (create_then_list_category dec_float_of_str dec_int_of_str
           plain_str literal_search mug_in shop _ id_2 float_4_5 3 24
           [mug_out; mkProductOut id_2 mug_in]
           eq_refl eq_refl eq_refl H1 H2 eq_refl).
Defined.

(** Thirty accented letters are sixty bytes and thirty characters, and are
    kept whole by the cut at 50 characters. *)
Example cut50_counts_characters :
  String.length accents = 60%nat
  /\ char_count accents = 30%nat
  /\ cut50 accents = accents.
Proof. repeat split; reflexivity. Qed.
